(** * module-tagger: the document model and the review session

    A shallow embedding of [module-tagger.py]: the class [AsciiDocFile]
    (one AsciiDoc file held as a list of lines) and the command methods of
    [AsciiDocTUI] (cursor, scroll position and the one-slot undo buffer),
    followed by the properties of the tool's specification.

    Conventions of the embedding.
    - A Python [str] is the list of its code points ([N]); [lit] turns an
      ASCII literal of the source into that representation.
    - A Python [int] is a [Z]; an index produced by [enumerate] is a [nat].
    - The file system is a finite map from paths to nodes.  A text file holds
      the text that [Path.read_text] returns and [Path.write_text] stores.
    - The terminal is a log of the calls made on [stdscr]; whether
      [stdscr.addstr] raises [curses.error] is decided by the curses library,
      which is a parameter of the development.
    - A method that can raise [IndexError] returns an [option]; every such
      method raises before it has changed anything. *)

From Stdlib Require Import ZArith NArith List Ascii Lia.
From Stdlib Require String DecimalString.
Import String.StringSyntax.
From stdpp Require Import base numbers option list gmap.

Local Open Scope nat_scope.

(** ** Python strings *)

Definition str := list N.

Definition lit (s : String.string) : str :=
  N_of_ascii <$> String.list_ascii_of_string s.
Arguments lit s%_string_scope.

(** [str.isspace] on one code point, as CPython's [Py_UNICODE_ISSPACE]. *)
Definition isspace (c : N) : bool :=
  ((9 <=? c) && (c <=? 13) || (28 <=? c) && (c <=? 32)
   || (c =? 133) || (c =? 160) || (c =? 5760)
   || (8192 <=? c) && (c <=? 8202)
   || (c =? 8232) || (c =? 8233) || (c =? 8239) || (c =? 8287)
   || (c =? 12288))%N.

Fixpoint lstrip (s : str) : str :=
  match s with
  | c :: rest => if isspace c then lstrip rest else s
  | [] => []
  end.

Definition rstrip (s : str) : str := reverse (lstrip (reverse s)).

(** [s.strip()] *)
Definition strip (s : str) : str := rstrip (lstrip s).

(** The line boundaries of [str.splitlines]. *)
Definition is_linebreak (c : N) : bool :=
  ((10 <=? c) && (c <=? 13) || (28 <=? c) && (c <=? 30)
   || (c =? 133) || (c =? 8232) || (c =? 8233))%N.

(** [s.splitlines(keepends=True)]; [cur] is the line read so far.  A
    carriage return followed by a line feed is one boundary. *)
Fixpoint splitlines_from (cur s : str) : list str :=
  match s with
  | [] => match cur with [] => [] | _ => [cur] end
  | c :: rest =>
      if negb (is_linebreak c) then splitlines_from (cur ++ [c]) rest
      else match rest with
           | c' :: rest' =>
               if ((c =? 13) && (c' =? 10))%N
               then (cur ++ [c; c']) :: splitlines_from [] rest'
               else (cur ++ [c]) :: splitlines_from [] rest
           | [] => [cur ++ [c]]
           end
  end.

Definition splitlines (s : str) : list str := splitlines_from [] s.

(** ["".join(lines)] *)
Definition join (lines : list str) : str := concat lines.

(** [needle in hay] on strings: [needle] occurs as a contiguous run. *)
Fixpoint startswith (hay needle : str) {struct needle} : bool :=
  match needle, hay with
  | [], _ => true
  | n :: needle', h :: hay' => (n =? h)%N && startswith hay' needle'
  | _ :: _, [] => false
  end.

Fixpoint str_in (needle hay : str) : bool :=
  startswith hay needle ||
  match hay with
  | [] => false
  | _ :: hay' => str_in needle hay'
  end.

(** [s[:k]] *)
Definition slice_to {A} (k : Z) (s : list A) : list A :=
  if (0 <=? k)%Z then take (Z.to_nat k) s
  else take (length s - Z.to_nat (- k)) s.

(** [seq[i]] with Python's negative indices: the position read, or [None]
    where Python raises [IndexError]. *)
Definition index_pos (i : Z) (n : nat) : option nat :=
  if ((0 <=? i) && (i <? Z.of_nat n))%Z then Some (Z.to_nat i)
  else if ((- Z.of_nat n <=? i) && (i <? 0))%Z then Some (Z.to_nat (Z.of_nat n + i))
  else None.

(** ** Regular expressions

    The fragment of [re] that the pattern of the source uses.  [re.match]
    looks for a match at the start of the string, so the leading [^] of the
    pattern adds nothing and is not represented. *)

Inductive regex :=
  | ReChar (c : N)
  | ReDot
  | ReStar (r : regex)
  | ReSeq (r1 r2 : regex).

Inductive re_lang : regex → str → Prop :=
  | lang_char c : re_lang (ReChar c) [c]
  | lang_dot c : c ≠ 10%N → re_lang ReDot [c]
  | lang_star_nil r : re_lang (ReStar r) []
  | lang_star_cons r u v :
      re_lang r u → re_lang (ReStar r) v → re_lang (ReStar r) (u ++ v)
  | lang_seq r1 r2 u v :
      re_lang r1 u → re_lang r2 v → re_lang (ReSeq r1 r2) (u ++ v).

(** [re.match(r, s)] finds a match: some prefix of [s] is in the language. *)
Definition re_match (r : regex) (s : str) : Prop :=
  ∃ u v, s = u ++ v ∧ re_lang r u.

(** The pattern ["^\[id=.*\]"]. *)
Definition heading_id_re : regex :=
  ReSeq (ReChar 91) (ReSeq (ReChar 105) (ReSeq (ReChar 100) (ReSeq (ReChar 61)
    (ReSeq (ReStar ReDot) (ReChar 93))))).

(** The matcher for [.*\]]: a closing bracket before any line feed. *)
Fixpoint match_dotstar_bracket (s : str) : bool :=
  match s with
  | [] => false
  | c :: rest =>
      if (c =? 93)%N then true
      else if (c =? 10)%N then false
      else match_dotstar_bracket rest
  end.

(** [re.match(r"^\[id=.*\]", s)] as a test. *)
Definition match_heading_id (s : str) : bool :=
  match s with
  | 91%N :: 105%N :: 100%N :: 61%N :: rest => match_dotstar_bracket rest
  | _ => false
  end.

(** ** The document model: class [AsciiDocFile] *)

Definition Path := str.

(** [path.name]: the final component of the path. *)
Fixpoint path_name_from (cur p : str) : str :=
  match p with
  | [] => cur
  | c :: rest =>
      if (c =? 47)%N then path_name_from [] rest
      else path_name_from (cur ++ [c]) rest
  end.

Definition path_name (p : Path) : str := path_name_from [] p.

Record AsciiDocFile := mkAsciiDocFile {
  path : Path;
  content : str;
  lines : list str;
}.

Definition marker_token : str := lit ":_mod-docs-content-type:".

(** [has_content_type] *)
Definition has_content_type (self : AsciiDocFile) : bool :=
  str_in marker_token (content self).

(** The test of the loop in [find_first_heading_id]. *)
Definition is_heading_id (line : str) : bool := match_heading_id (strip line).

Fixpoint first_heading_id_from (i : nat) (ls : list str) : option nat :=
  match ls with
  | [] => None
  | line :: rest =>
      if is_heading_id line then Some i else first_heading_id_from (S i) rest
  end.

(** [find_first_heading_id] *)
Definition find_first_heading_id (self : AsciiDocFile) : option nat :=
  first_heading_id_from 0 (lines self).

(** ** The world: file system and terminal *)

Inductive Node :=
  | TextFile (text : str)
  | Unreadable
  | Directory.

Inductive Event :=
  | EvWriteText (p : Path) (text : str)
  | EvAddStr (y x : Z) (s : str) (pair : Z)
  | EvRefresh
  | EvNapms (ms : Z).

Record World := mkWorld {
  disk : gmap (list N) Node;
  maxyx : Z * Z;
  trace : list Event;
}.

(** [path.is_file()] *)
Definition is_file (p : Path) (w : World) : bool :=
  match disk w !! p with
  | Some (TextFile _) | Some Unreadable => true
  | _ => false
  end.

(** [path.read_text()]; [None] where it raises. *)
Definition read_text (p : Path) (w : World) : option str :=
  match disk w !! p with
  | Some (TextFile text) => Some text
  | _ => None
  end.

(** [path.write_text(text)], for the path of a loaded document. *)
Definition write_text (p : Path) (text : str) (w : World) : World :=
  {| disk := <[p := TextFile text]> (disk w);
     maxyx := maxyx w;
     trace := trace w ++ [EvWriteText p text] |}.

(** The writes recorded in a trace. *)
Definition writes (t : list Event) : list (Path * str) :=
  omap (λ e, match e with EvWriteText p text => Some (p, text) | _ => None end) t.

(** [AsciiDocFile.__init__] *)
Definition AsciiDocFile_init (p : Path) (w : World) : option AsciiDocFile :=
  text ← read_text p w;
  Some {| path := p; content := text; lines := splitlines text |}.

(** [list.insert(i, x)] for an index that is not negative. *)
Definition py_insert {A} (i : nat) (x : A) (l : list A) : list A :=
  take i l ++ x :: drop i l.

Definition content_type_line (content_type : str) : str :=
  lit ":_mod-docs-content-type: " ++ content_type ++ [10%N].

Definition review_line : str := lit "// TODO: needs-type-review" ++ [10%N].

(** [add_content_type] *)
Definition add_content_type (content_type : str) (self : AsciiDocFile) (w : World)
  : bool * AsciiDocFile * World :=
  match find_first_heading_id self with
  | None => (false, self, w)
  | Some heading_line =>
      let new_line := content_type_line content_type in
      let self' := {| path := path self; content := content self;
                      lines := py_insert heading_line new_line (lines self) |} in
      (true, self', write_text (path self') (join (lines self')) w)
  end.

(** [add_review_marker] *)
Definition add_review_marker (self : AsciiDocFile) (w : World)
  : bool * AsciiDocFile * World :=
  match find_first_heading_id self with
  | None => (false, self, w)
  | Some heading_line =>
      let new_line := review_line in
      let self' := {| path := path self; content := content self;
                      lines := py_insert heading_line new_line (lines self) |} in
      (true, self', write_text (path self') (join (lines self')) w)
  end.

(** ** The review session: class [AsciiDocTUI] *)

Record AsciiDocTUI := mkAsciiDocTUI {
  directory : Path;
  files : list AsciiDocFile;
  current_index : Z;
  scroll_offset : Z;
  last_modification : option (Z * list str);
}.

(** [_find_asciidoc_files]; [rglob_sorted] is
    [sorted(self.directory.rglob("*.adoc"))]. *)
Fixpoint _find_asciidoc_files (rglob_sorted : list Path) (w : World)
  : list AsciiDocFile :=
  match rglob_sorted with
  | [] => []
  | adoc_file :: rest =>
      let found := _find_asciidoc_files rest w in
      if is_file adoc_file w then
        match AsciiDocFile_init adoc_file w with
        | Some doc => if negb (has_content_type doc) then doc :: found else found
        | None => found
        end
      else found
  end.

(** [AsciiDocTUI.__init__] *)
Definition AsciiDocTUI_init (dir : Path) (rglob_sorted : list Path) (w : World)
  : AsciiDocTUI :=
  {| directory := dir;
     files := _find_asciidoc_files rglob_sorted w;
     current_index := 0;
     scroll_offset := 0;
     last_modification := None |}.

(** [_next_file] *)
Definition _next_file (self : AsciiDocTUI) : AsciiDocTUI :=
  if (current_index self <? Z.of_nat (length (files self)))%Z then
    {| directory := directory self; files := files self;
       current_index := current_index self + 1;
       scroll_offset := 0;
       last_modification := last_modification self |}
  else self.

(** [_prev_file] *)
Definition _prev_file (self : AsciiDocTUI) : AsciiDocTUI :=
  if (current_index self >? 0)%Z then
    {| directory := directory self; files := files self;
       current_index := current_index self - 1;
       scroll_offset := 0;
       last_modification := last_modification self |}
  else self.

(** [_scroll_up] *)
Definition _scroll_up (self : AsciiDocTUI) : AsciiDocTUI :=
  {| directory := directory self; files := files self;
     current_index := current_index self;
     scroll_offset := Z.max 0 (scroll_offset self - 10);
     last_modification := last_modification self |}.

(** [_scroll_down] *)
Definition _scroll_down (self : AsciiDocTUI) (w : World) : option AsciiDocTUI :=
  let content_height := (fst (maxyx w) - 4)%Z in
  pos ← index_pos (current_index self) (length (files self));
  current_file ← files self !! pos;
  let n := Z.of_nat (length (lines current_file)) in
  if (scroll_offset self + content_height <? n)%Z then
    Some {| directory := directory self; files := files self;
            current_index := current_index self;
            scroll_offset :=
              scroll_offset self
              + Z.min 10 (n - scroll_offset self - content_height);
            last_modification := last_modification self |}
  else Some self.

Section Session.

(** Whether [stdscr.addstr(y, x, s, attr)] raises [curses.error] in a window
    of the given size. *)
Variable addstr_raises : Z * Z → Z → Z → str → bool.

(** The status line that the commands share:
    [addstr(height - 1, 0, msg[: width - 1], color_pair(pair))], [refresh()],
    [napms(ms)], given up as a whole when [addstr] raises. *)
Definition show_status (msg : str) (pair ms : Z) (w : World) : World :=
  let '(height, width) := maxyx w in
  let text := slice_to (width - 1) msg in
  if addstr_raises (maxyx w) (height - 1) 0 text then w
  else {| disk := disk w; maxyx := maxyx w;
          trace := trace w ++ [EvAddStr (height - 1) 0 text pair;
                               EvRefresh; EvNapms ms] |}.

(** [_add_type] *)
Definition _add_type (content_type : str) (self : AsciiDocTUI) (w : World)
  : option (AsciiDocTUI * World) :=
  pos ← index_pos (current_index self) (length (files self));
  current_file ← files self !! pos;
  let snapshot := Some (current_index self, lines current_file) in
  let '(ok, current_file', w1) := add_content_type content_type current_file w in
  let w2 :=
    if ok : bool then
      show_status
        (lit "Added " ++ content_type ++ lit " to " ++ path_name (path current_file'))
        2 1000 w1
    else w1 in
  Some (_next_file
          {| directory := directory self;
             files := <[pos := current_file']> (files self);
             current_index := current_index self;
             scroll_offset := scroll_offset self;
             last_modification := snapshot |}, w2).

(** [_mark_for_review] *)
Definition _mark_for_review (self : AsciiDocTUI) (w : World)
  : option (AsciiDocTUI * World) :=
  pos ← index_pos (current_index self) (length (files self));
  current_file ← files self !! pos;
  let snapshot := Some (current_index self, lines current_file) in
  let '(ok, current_file', w1) := add_review_marker current_file w in
  let w2 :=
    if ok : bool then
      show_status
        (lit "Marked " ++ path_name (path current_file') ++ lit " for review")
        3 1000 w1
    else w1 in
  Some (_next_file
          {| directory := directory self;
             files := <[pos := current_file']> (files self);
             current_index := current_index self;
             scroll_offset := scroll_offset self;
             last_modification := snapshot |}, w2).

(** [_undo] *)
Definition _undo (self : AsciiDocTUI) (w : World) : option (AsciiDocTUI * World) :=
  match last_modification self with
  | None => Some (self, show_status (lit "Nothing to undo") 3 2000 w)
  | Some (file_index, original_lines) =>
      pos ← index_pos file_index (length (files self));
      undone_file ← files self !! pos;
      let undone_file' := {| path := path undone_file;
                             content := content undone_file;
                             lines := original_lines |} in
      let w1 := write_text (path undone_file') (join original_lines) w in
      let w2 := show_status
                  (lit "Undid changes to " ++ path_name (path undone_file'))
                  2 2000 w1 in
      Some ({| directory := directory self;
               files := <[pos := undone_file']> (files self);
               current_index := file_index;
               scroll_offset := 0;
               last_modification := None |}, w2)
  end.

(** The commands of the loop in [run], and the key that selects each. *)
Inductive Command :=
  | Tag (content_type : str)
  | Flag
  | Undo
  | Advance
  | Retreat
  | ScrollDown
  | ScrollUp.

Definition CONCEPT : str := lit "CONCEPT".
Definition PROCEDURE : str := lit "PROCEDURE".
Definition REFERENCE : str := lit "REFERENCE".

(** The branch that [run] takes for a key code; [None] for [q], [Q] (which
    leave the loop) and for the keys that [run] ignores. *)
Definition command_of_key (key : Z) : option Command :=
  if ((key =? 99) || (key =? 67))%Z then Some (Tag CONCEPT)
  else if ((key =? 112) || (key =? 80))%Z then Some (Tag PROCEDURE)
  else if ((key =? 114) || (key =? 82))%Z then Some (Tag REFERENCE)
  else if (key =? 63)%Z then Some Flag
  else if ((key =? 117) || (key =? 85))%Z then Some Undo
  else if ((key =? 102) || (key =? 70))%Z then Some Advance
  else if ((key =? 98) || (key =? 66))%Z then Some Retreat
  else if ((key =? 109) || (key =? 77))%Z then Some ScrollDown
  else if (key =? 258)%Z then Some ScrollDown
  else if (key =? 259)%Z then Some ScrollUp
  else None.

Definition exec (c : Command) (self : AsciiDocTUI) (w : World)
  : option (AsciiDocTUI * World) :=
  match c with
  | Tag content_type => _add_type content_type self w
  | Flag => _mark_for_review self w
  | Undo => _undo self w
  | Advance => Some (_next_file self, w)
  | Retreat => Some (_prev_file self, w)
  | ScrollDown => self' ← _scroll_down self w; Some (self', w)
  | ScrollUp => Some (_scroll_up self, w)
  end.

(** A run of commands, stopping at the first that raises. *)
Fixpoint exec_all (cs : list Command) (self : AsciiDocTUI) (w : World)
  : option (AsciiDocTUI * World) :=
  match cs with
  | [] => Some (self, w)
  | c :: rest => '(self', w') ← exec c self w; exec_all rest self' w'
  end.

(** The commands that edit a document, and the line each inserts. *)
Definition mutating (c : Command) : bool :=
  match c with
  | Tag _ | Flag => true
  | _ => false
  end.

Definition inserted_line (c : Command) : str :=
  match c with
  | Tag content_type => content_type_line content_type
  | _ => review_line
  end.

(** The commands that only move the cursor or the view. *)
Definition navigating (c : Command) : bool :=
  match c with
  | Advance | Retreat | ScrollDown | ScrollUp => true
  | _ => false
  end.

End Session.

(** ** Shapes of an anchor line *)

(** The shape that the pattern accepts: the stripped line starts with
    [[id=], and a closing bracket follows with no line feed in between;
    anything may come after the bracket. *)
Definition anchor_shape (line : str) : Prop :=
  ∃ mid rest, strip line = lit "[id=" ++ mid ++ lit "]" ++ rest
              ∧ Forall (λ c, c ≠ 10%N) mid.

(** The narrower shape that also asks the stripped line to end with the
    closing bracket. *)
Definition anchor_shape_closed (line : str) : Prop :=
  ∃ mid, strip line = lit "[" ++ lit "id=" ++ mid ++ lit "]".

(** What the two insertion methods share, for the proofs: find the anchor,
    insert [new_line] before it, write the file. *)
Definition insert_line (new_line : str) (self : AsciiDocFile) (w : World)
  : bool * AsciiDocFile * World :=
  match find_first_heading_id self with
  | None => (false, self, w)
  | Some heading_line =>
      let self' := {| path := path self; content := content self;
                      lines := py_insert heading_line new_line (lines self) |} in
      (true, self', write_text (path self') (join (lines self')) w)
  end.

(** ** The screen and the loop of [run]

    [stdscr.clear()], [curses.curs_set] and [curses.init_pair] change what
    is painted and are not recorded in the trace.  An exception that leaves
    a method is returned together with the world at that point. *)

Inductive Exn := IndexError | CursesError.

(** [str(n)] for an integer, as the f-strings of the source format it. *)
Definition str_of_int (n : Z) : str :=
  lit (DecimalString.NilZero.string_of_int (Z.to_int n)).

(** A bound of a slice, as Python adjusts it to a sequence of length [n]. *)
Definition slice_bound (i : Z) (n : nat) : nat :=
  if (i <? 0)%Z then Z.to_nat (Z.of_nat n + i) else Nat.min (Z.to_nat i) n.

(** [l[a:b]] *)
Definition py_slice {A} (a b : Z) (l : list A) : list A :=
  let lo := slice_bound a (length l) in
  let hi := slice_bound b (length l) in
  take (hi - lo) (drop lo l).

Definition help_text : str :=
  lit "[C]oncept [P]rocedure [R]eference [?]Review [U]ndo [F]wd [B]ack [M]ore [Q]uit".

(** The three characters of the literal that [_draw_screen] repeats in
    row 2. *)
Definition separator_unit : str := [226%N; 8221%N; 8364%N].

(** The keys that leave the loop of [run]. *)
Definition is_quit (key : Z) : bool := ((key =? 113) || (key =? 81))%Z.

Inductive Outcome :=
  | Raised (e : Exn) (self : AsciiDocTUI) (w : World)
  | Blocked (self : AsciiDocTUI) (w : World)
  | Returned (self : AsciiDocTUI) (w : World).

Definition outcome_session (o : Outcome) : AsciiDocTUI :=
  match o with Raised _ s _ | Blocked s _ | Returned s _ => s end.

Definition outcome_world (o : Outcome) : World :=
  match o with Raised _ _ w | Blocked _ w | Returned _ w => w end.

Section Screen.

Variable addstr_raises : Z * Z → Z → Z → str → bool.

(** [stdscr.addstr(y, x, s, curses.color_pair(pair))]; a call without
    attribute is one with pair 0. *)
Definition addstr (y x : Z) (s : str) (pair : Z) (w : World)
  : Exn * World + World :=
  if addstr_raises (maxyx w) y x s then inl (CursesError, w)
  else inr {| disk := disk w; maxyx := maxyx w;
              trace := trace w ++ [EvAddStr y x s pair] |}.

(** The same call inside [try: ... except curses.error: pass]. *)
Definition addstr_pass (y x : Z) (s : str) (pair : Z) (w : World) : World :=
  match addstr y x s pair w with
  | inr w' => w'
  | inl _ => w
  end.

(** Some call of [addstr] raises. *)
Definition some_addstr_raises : Prop :=
  ∃ m y x t, addstr_raises m y x t = true.

(** [stdscr.refresh()] *)
Definition refresh (w : World) : World :=
  {| disk := disk w; maxyx := maxyx w; trace := trace w ++ [EvRefresh] |}.

(** The loop over [enumerate(lines_to_show)] in [_draw_screen]; [i] is the
    index of the first line of [ls]. *)
Fixpoint draw_lines (i width : Z) (ls : list str) (w : World) : World :=
  match ls with
  | [] => w
  | line :: rest =>
      let w' :=
        if is_heading_id line
        then addstr_pass (3 + i) 0 (slice_to (width - 1) line) 2 w
        else addstr_pass (3 + i) 0 (slice_to (width - 1) line) 0 w in
      draw_lines (i + 1) width rest w'
  end.

(** [_draw_screen] *)
Definition _draw_screen (self : AsciiDocTUI) (w : World) : Exn * World + World :=
  let '(height, width) := maxyx w in
  match index_pos (current_index self) (length (files self))
        ≫= (λ pos, files self !! pos) with
  | None => inl (IndexError, w)
  | Some current_file =>
      let header :=
        lit "File " ++ str_of_int (current_index self + 1) ++ lit "/"
        ++ str_of_int (Z.of_nat (length (files self))) ++ lit ": "
        ++ path_name (path current_file) in
      match addstr 0 0 (slice_to (width - 1) header) 1 w with
      | inl e => inl e
      | inr w1 =>
      match addstr 1 0 (slice_to (width - 1) help_text) 3 w1 with
      | inl e => inl e
      | inr w2 =>
      match addstr 2 0
              (concat (replicate (Z.to_nat (width - 1)) separator_unit)) 0 w2 with
      | inl e => inl e
      | inr w3 =>
          let content_start := 3%Z in
          let content_height := (height - content_start - 1)%Z in
          let lines_to_show :=
            py_slice (scroll_offset self)
              (scroll_offset self + content_height) (lines current_file) in
          let w4 := draw_lines 0 width lines_to_show w3 in
          let n := Z.of_nat (length (lines current_file)) in
          let w5 :=
            if (scroll_offset self + content_height <? n)%Z then
              addstr_pass (height - 1) 0
                (lit "[More content below - line "
                 ++ str_of_int (scroll_offset self + content_height)
                 ++ lit "/" ++ str_of_int n ++ lit "]") 3 w4
            else w4 in
          inr (refresh w5)
      end end end
  end.

(** The end of [run]: the two closing lines, then one more key. *)
Definition closing_screen (first_line : str) (keys : list Z)
    (self : AsciiDocTUI) (w : World) : Outcome :=
  match addstr 0 0 first_line 0 w with
  | inl (e, w') => Raised e self w'
  | inr w1 =>
      match addstr 1 0 (lit "Press any key to exit...") 0 w1 with
      | inl (e, w') => Raised e self w'
      | inr w2 =>
          match keys with
          | [] => Blocked self w2
          | _ :: _ => Returned self w2
          end
      end
  end.

Definition processed_line (self : AsciiDocTUI) : str :=
  lit "Processed " ++ str_of_int (current_index self) ++ lit " of "
  ++ str_of_int (Z.of_nat (length (files self))) ++ lit " files.".

(** The [while] loop of [run] and what follows it; [keys] are the values
    that [stdscr.getch()] returns, in order.  [Blocked] is the state of a
    run that waits in [getch] for a key that [keys] does not hold. *)
Fixpoint run_loop (keys : list Z) (self : AsciiDocTUI) (w : World) : Outcome :=
  if (current_index self <? Z.of_nat (length (files self)))%Z then
    match _draw_screen self w with
    | inl (e, w') => Raised e self w'
    | inr w1 =>
        match keys with
        | [] => Blocked self w1
        | key :: rest =>
            if is_quit key then
              closing_screen (processed_line self) rest self w1
            else
              match command_of_key key with
              | None => run_loop rest self w1
              | Some c =>
                  match exec addstr_raises c self w1 with
                  | None => Raised IndexError self w1
                  | Some (self', w') => run_loop rest self' w'
                  end
              end
        end
    end
  else closing_screen (processed_line self) keys self w.

(** [run] *)
Definition run (keys : list Z) (self : AsciiDocTUI) (w : World) : Outcome :=
  match files self with
  | [] =>
      closing_screen
        (lit "No AsciiDoc files found without content type metadata.")
        keys self w
  | _ :: _ => run_loop keys self w
  end.

End Screen.

(** ** Invariants of a session *)

(** The cursor is on a document or just past the last one. *)
Definition cursor_ok (s : AsciiDocTUI) : Prop :=
  (0 ≤ current_index s ≤ Z.of_nat (length (files s)))%Z.

(** The undo slot, when full, names a document of the session. *)
Definition slot_ok (s : AsciiDocTUI) : Prop :=
  match last_modification s with
  | Some (i, _) => (0 ≤ i < Z.of_nat (length (files s)))%Z
  | None => True
  end.



(** Two worlds with the same files, the same terminal size and the same
    writes so far. *)
Definition same_files (w w' : World) : Prop :=
  disk w' = disk w ∧ maxyx w' = maxyx w
  ∧ writes (trace w') = writes (trace w).

(** The keys that select a tag, a flag or an undo. *)
Definition editing_key (key : Z) : bool :=
  match command_of_key key with
  | Some (Tag _) | Some Flag | Some Undo => true
  | _ => false
  end.

(** ** A small review session

    Three candidates: [b.adoc] and [e.adoc] have an anchor line, [c.adoc]
    has none.  The terminal has 24 rows and 80 columns and [addstr] never
    raises. *)

Definition never_raises : Z * Z → Z → Z → str → bool := λ _ _ _ _, false.

Definition text_b : str := lit "= B" ++ [10%N] ++ lit "[id=b-intro]" ++ [10%N].
Definition text_c : str := lit "= C" ++ [10%N] ++ lit "no anchor" ++ [10%N].
Definition text_e : str := lit "[id=e]" ++ [10%N] ++ lit "= E" ++ [10%N].

Definition doc_b : AsciiDocFile :=
  {| path := lit "m/b.adoc"; content := text_b; lines := splitlines text_b |}.
Definition doc_c : AsciiDocFile :=
  {| path := lit "m/c.adoc"; content := text_c; lines := splitlines text_c |}.
Definition doc_e : AsciiDocFile :=
  {| path := lit "m/e.adoc"; content := text_e; lines := splitlines text_e |}.

Definition world0 : World :=
  {| disk := {[ lit "m/b.adoc" := TextFile text_b;
                lit "m/c.adoc" := TextFile text_c;
                lit "m/e.adoc" := TextFile text_e ]};
     maxyx := (24, 80)%Z;
     trace := [] |}.

Definition session0 : AsciiDocTUI :=
  AsciiDocTUI_init (lit "m")
    [lit "m/b.adoc"; lit "m/c.adoc"; lit "m/e.adoc"] world0.

(** The session and the world after the commands [cs], from the start. *)
Definition after (cs : list Command) : AsciiDocTUI * World :=
  default (session0, world0) (exec_all never_raises cs session0 world0).

(** * Properties *)

(** ** Strings *)

Lemma startswith_spec (hay needle : str) :
  startswith hay needle = true ↔ ∃ post, hay = needle ++ post.
Proof.
  revert hay. induction needle as [|n needle IH]; intros hay; simpl.
  - split; [intros _; by exists hay | done].
  - destruct hay as [|h hay].
    + split; [done | intros [post Hpost]; discriminate].
    + rewrite andb_true_iff, N.eqb_eq, IH. split.
      * intros [-> [post ->]]. by exists post.
      * intros [post [= -> ->]]. split; [done | by exists post].
Qed.

Lemma str_in_spec (needle hay : str) :
  str_in needle hay = true ↔ ∃ pre post, hay = pre ++ needle ++ post.
Proof.
  induction hay as [|h hay IH].
  - simpl. rewrite orb_false_r, startswith_spec. split.
    + intros [post Hpost]. by exists [], post.
    + intros (pre & post & Heq). symmetry in Heq.
      apply app_eq_nil in Heq as [-> Heq].
      apply app_eq_nil in Heq as [-> _]. by exists [].
  - cbn [str_in]. rewrite orb_true_iff, startswith_spec, IH. split.
    + intros [[post ->] | (pre & post & ->)].
      * by exists [], post.
      * by exists (h :: pre), post.
    + intros ([|c pre] & post & Heq); simpl in Heq.
      * left. by exists post.
      * right. injection Heq as -> ->. by exists pre, post.
Qed.

Lemma join_splitlines_from (s cur : str) :
  join (splitlines_from cur s) = cur ++ s.
Proof.
  remember (length s) as n eqn:Hn. revert s cur Hn.
  induction n as [n IH] using lt_wf_ind. intros s cur ->.
  destruct s as [|c rest]; simpl.
  - destruct cur; simpl; by rewrite ?app_nil_r.
  - destruct (is_linebreak c); simpl.
    + destruct rest as [|c' rest']; simpl.
      * by rewrite app_nil_r.
      * destruct (_ && _)%N eqn:Hcrlf; unfold join in *; simpl.
        -- rewrite (IH (length rest')); [|simpl; lia|done].
           apply andb_true_iff in Hcrlf as [_ ->%N.eqb_eq].
           by rewrite <- !app_assoc.
        -- pose proof (IH (length (c' :: rest')) ltac:(simpl; lia)
                         (c' :: rest') [] eq_refl) as E.
           simpl in E. rewrite E. by rewrite <- !app_assoc.
    + unfold join in *. rewrite (IH (length rest)); [|simpl; lia|done].
      by rewrite <- app_assoc.
Qed.

(** Joining the lines of a text gives the text back. *)
Lemma join_splitlines (s : str) : join (splitlines s) = s.
Proof. apply join_splitlines_from. Qed.

(** ** The anchor pattern *)

Lemma lang_star_dot (u : str) :
  re_lang (ReStar ReDot) u ↔ Forall (λ c, c ≠ 10%N) u.
Proof.
  split.
  - intros H. remember (ReStar ReDot) as r eqn:Hr.
    induction H as [| | |r u v Hu _ Hv IH|]; try discriminate.
    + constructor.
    + injection Hr as ->. inversion Hu; subst. constructor; [done | by apply IH].
  - induction 1 as [|c u Hc _ IH].
    + constructor.
    + change (c :: u) with ([c] ++ u). constructor; [by constructor | done].
Qed.

Lemma lang_char_inv (c : N) (u : str) : re_lang (ReChar c) u → u = [c].
Proof. by inversion 1. Qed.

(** The words of the pattern: [[id=], a run without line feed, []]. *)
Lemma heading_id_lang (u : str) :
  re_lang heading_id_re u ↔
  ∃ mid, u = lit "[id=" ++ mid ++ lit "]" ∧ Forall (λ c, c ≠ 10%N) mid.
Proof.
  unfold heading_id_re. split.
  - intros H.
    repeat match goal with
           | H : re_lang (ReSeq _ _) _ |- _ => inversion H; subst; clear H
           | H : re_lang (ReChar _) _ |- _ => apply lang_char_inv in H; subst
           end.
    match goal with H : re_lang (ReStar ReDot) ?m |- _ =>
      exists m; split; [done | by apply lang_star_dot] end.
  - intros (mid & -> & Hmid).
    change (lit "[id=" ++ mid ++ lit "]")
      with ([91%N] ++ [105%N] ++ [100%N] ++ [61%N] ++ mid ++ [93%N]).
    repeat (constructor; [by constructor|]).
    constructor; [by apply lang_star_dot | constructor].
Qed.

Lemma match_dotstar_bracket_spec (s : str) :
  match_dotstar_bracket s = true ↔
  ∃ mid rest, s = mid ++ 93%N :: rest ∧ Forall (λ c, c ≠ 10%N) mid.
Proof.
  induction s as [|c s IH]; simpl.
  - split; [done | intros ([|??] & ? & ? & _); discriminate].
  - destruct (c =? 93)%N eqn:Hb.
    + apply N.eqb_eq in Hb as ->. split; [|done].
      intros _. by exists [], s.
    + apply N.eqb_neq in Hb. destruct (c =? 10)%N eqn:Hn.
      * apply N.eqb_eq in Hn as ->. split; [done|].
        intros ([|c mid] & rest & Heq & Hmid); simplify_eq/=.
        by inversion Hmid.
      * apply N.eqb_neq in Hn. rewrite IH. split.
        -- intros (mid & rest & -> & Hmid). exists (c :: mid), rest.
           split; [done | by constructor].
        -- intros ([|c' mid] & rest & Heq & Hmid); simplify_eq/=.
           exists mid, rest. split; [done | by inversion Hmid].
Qed.

(** The test [match_heading_id] decides [re.match] of the pattern. *)
Lemma match_heading_id_spec (s : str) :
  match_heading_id s = true ↔ re_match heading_id_re s.
Proof.
  unfold re_match. split.
  - intros H.
    destruct s as [|c0 [|c1 [|c2 [|c3 s]]]]; simpl in H; try done;
      repeat match type of H with
             | match ?c with _ => _ end = _ => destruct c; try done
             end.
    all: try (apply match_dotstar_bracket_spec in H as (mid & rest & -> & Hmid);
              exists (lit "[id=" ++ mid ++ lit "]"), rest; split;
              [by rewrite <- !app_assoc | apply heading_id_lang; by exists mid]).
  - intros (u & v & -> & (mid & -> & Hmid)%heading_id_lang).
    simpl. apply match_dotstar_bracket_spec. exists mid, v.
    split; [by rewrite <- app_assoc | done].
Qed.

Lemma is_heading_id_spec (line : str) :
  is_heading_id line = true ↔ anchor_shape line.
Proof.
  unfold is_heading_id, anchor_shape.
  rewrite match_heading_id_spec. unfold re_match. split.
  - intros (u & v & Heq & (mid & -> & Hmid)%heading_id_lang).
    exists mid, v. rewrite Heq. split; [by rewrite <- !app_assoc | done].
  - intros (mid & rest & Heq & Hmid).
    exists (lit "[id=" ++ mid ++ lit "]"), rest. split.
    + rewrite Heq. by rewrite <- !app_assoc.
    + apply heading_id_lang. by exists mid.
Qed.

Lemma is_heading_id_false (line : str) :
  is_heading_id line = false ↔ ¬ anchor_shape line.
Proof.
  rewrite <- is_heading_id_spec. by destruct (is_heading_id line).
Qed.

Lemma first_heading_id_from_Some (k : nat) (ls : list str) (i : nat) :
  first_heading_id_from k ls = Some i ↔
  ∃ pre anchor post,
    ls = pre ++ anchor :: post ∧ i = k + length pre
    ∧ Forall (λ l, is_heading_id l = false) pre ∧ is_heading_id anchor = true.
Proof.
  revert k. induction ls as [|line ls IH]; intros k; simpl.
  - split; [done | intros ([|??] & ? & ? & ? & _); discriminate].
  - destruct (is_heading_id line) eqn:Hline.
    + split.
      * intros [= <-]. exists [], line, ls. simpl. repeat split; [lia | done..].
      * intros ([|l pre] & anchor & post & Heq & -> & Hpre & Hanchor);
          simplify_eq/=; [f_equal; lia|].
        inversion Hpre; congruence.
    + rewrite IH. split.
      * intros (pre & anchor & post & -> & -> & Hpre & Hanchor).
        exists (line :: pre), anchor, post. simpl.
        repeat split; [lia | by constructor | done].
      * intros ([|l pre] & anchor & post & Heq & -> & Hpre & Hanchor);
          simplify_eq/=; [congruence|].
        exists pre, anchor, post. repeat split; [lia | by inversion Hpre | done].
Qed.

Lemma first_heading_id_from_None (k : nat) (ls : list str) :
  first_heading_id_from k ls = None ↔
  Forall (λ l, is_heading_id l = false) ls.
Proof.
  revert k. induction ls as [|line ls IH]; intros k; simpl.
  - split; [constructor | done].
  - destruct (is_heading_id line) eqn:Hline.
    + split; [done | inversion 1; congruence].
    + rewrite IH. split; [by constructor | by inversion 1].
Qed.

(** An anchor at index [i] splits the lines around it. *)
Lemma find_first_heading_id_split (d : AsciiDocFile) (i : nat) :
  find_first_heading_id d = Some i →
  ∃ anchor post,
    lines d = take i (lines d) ++ anchor :: post
    ∧ drop i (lines d) = anchor :: post
    ∧ length (take i (lines d)) = i
    ∧ Forall (λ l, is_heading_id l = false) (take i (lines d))
    ∧ is_heading_id anchor = true.
Proof.
  unfold find_first_heading_id.
  intros (pre & anchor & post & Heq & -> & Hpre & Hanchor)%first_heading_id_from_Some.
  exists anchor, post. simpl. rewrite Heq.
  rewrite take_app_length, drop_app_length. done.
Qed.

(** ** Stripping keeps a leading character that is not a space *)






(** ** The two insertion methods *)

Lemma add_content_type_eq (content_type : str) :
  add_content_type content_type = insert_line (content_type_line content_type).
Proof. reflexivity. Qed.

Lemma add_review_marker_eq : add_review_marker = insert_line review_line.
Proof. reflexivity. Qed.

Lemma insert_line_None (new_line : str) (d : AsciiDocFile) (w : World) :
  find_first_heading_id d = None → insert_line new_line d w = (false, d, w).
Proof. unfold insert_line. by intros ->. Qed.

Lemma insert_line_Some (new_line : str) (d : AsciiDocFile) (w : World) (i : nat) :
  find_first_heading_id d = Some i →
  insert_line new_line d w =
    (true,
     {| path := path d; content := content d;
        lines := py_insert i new_line (lines d) |},
     write_text (path d) (join (py_insert i new_line (lines d))) w).
Proof. unfold insert_line. by intros ->. Qed.


Lemma read_text_write_text (p : Path) (text : str) (w : World) :
  read_text p (write_text p text w) = Some text.
Proof. unfold read_text, write_text. simpl. by rewrite lookup_insert_eq. Qed.

Lemma read_text_write_text_ne (p q : Path) (text : str) (w : World) :
  p ≠ q → read_text q (write_text p text w) = read_text q w.
Proof.
  intros Hne. unfold read_text, write_text. simpl.
  by rewrite lookup_insert_ne.
Qed.

Lemma writes_app (t1 t2 : list Event) : writes (t1 ++ t2) = writes t1 ++ writes t2.
Proof. unfold writes. apply omap_app. Qed.

(** ** Candidates *)

Local Arguments lit : simpl never.

Lemma elem_of_find_asciidoc_files (rglob_sorted : list Path) (w : World)
    (d : AsciiDocFile) :
  d ∈ _find_asciidoc_files rglob_sorted w ↔
  ∃ p text,
    p ∈ rglob_sorted ∧ read_text p w = Some text
    ∧ d = {| path := p; content := text; lines := splitlines text |}
    ∧ str_in marker_token text = false.
Proof.
  induction rglob_sorted as [|q rest IH]; simpl.
  - split; [by intros ?%elem_of_nil|].
    by intros (? & ? & ?%elem_of_nil & _).
  - assert (Hrest : (∃ p text, p ∈ rest ∧ read_text p w = Some text
               ∧ d = {| path := p; content := text; lines := splitlines text |}
               ∧ str_in marker_token text = false)
             → ∃ p text, p ∈ q :: rest ∧ read_text p w = Some text
               ∧ d = {| path := p; content := text; lines := splitlines text |}
               ∧ str_in marker_token text = false).
    { intros (p & text & Hp & H). exists p, text. split; [by right | done]. }
    unfold is_file, AsciiDocFile_init, read_text, has_content_type in *.
    destruct (disk w !! q) as [[text| |]|] eqn:Hq; simpl.
    + destruct (str_in marker_token text) eqn:Hin; simpl.
      * rewrite IH. split; [done|].
        intros (p & t & [->|Hp]%elem_of_cons & Ht & -> & Hno).
        -- rewrite Hq in Ht. congruence.
        -- by exists p, t.
      * rewrite elem_of_cons, IH. split.
        -- intros [->|H]; [|by apply Hrest].
           exists q, text. rewrite Hq. split; [by left | done].
        -- intros (p & t & [->|Hp]%elem_of_cons & Ht & -> & Hno).
           ++ rewrite Hq in Ht. left. congruence.
           ++ right. by exists p, t.
    + rewrite IH. split; [done|].
      intros (p & t & [->|Hp]%elem_of_cons & Ht & -> & Hno).
      * by rewrite Hq in Ht.
      * by exists p, t.
    + rewrite IH. split; [done|].
      intros (p & t & [->|Hp]%elem_of_cons & Ht & -> & Hno).
      * by rewrite Hq in Ht.
      * by exists p, t.
    + rewrite IH. split; [done|].
      intros (p & t & [->|Hp]%elem_of_cons & Ht & -> & Hno).
      * by rewrite Hq in Ht.
      * by exists p, t.
Qed.

(** ** The document model: claims *)

(** C2, as stated, fails.  The line [[id=a]x] does not end with a closing
    bracket once stripped, so no line of this document has the shape of the
    claim, and yet [find_first_heading_id] returns index 0 for it. *)
Lemma heading_id_with_trailing_text :
  let d := {| path := lit "m.adoc";
              content := lit "[id=a]x" ++ [10%N];
              lines := [lit "[id=a]x" ++ [10%N]] |} in
  (∀ line, line ∈ lines d → ¬ anchor_shape_closed line)
  ∧ find_first_heading_id d = Some 0.
Proof.
  split; [|reflexivity].
  intros line ->%list_elem_of_singleton (mid & Hmid).
  apply (f_equal last) in Hmid.
  change (lit "]") with [93%N] in Hmid.
  rewrite !app_assoc, last_snoc in Hmid.
  vm_compute in Hmid. discriminate.
Qed.

(** C2, amended.  [find_first_heading_id] returns the index of the first
    line whose stripped text starts with [[id=] and has a closing bracket
    later on, with no line feed in between and with any text after the
    bracket; it returns none exactly when no line has that shape. *)
Theorem find_first_heading_id_first_anchor (d : AsciiDocFile) :
  match find_first_heading_id d with
  | Some i =>
      (∃ line, lines d !! i = Some line ∧ anchor_shape line)
      ∧ (∀ j line, j < i → lines d !! j = Some line → ¬ anchor_shape line)
  | None => ∀ line, line ∈ lines d → ¬ anchor_shape line
  end.
Proof.
  destruct (find_first_heading_id d) as [i|] eqn:Hfind.
  - destruct (find_first_heading_id_split d i Hfind)
      as (anchor & post & Hsplit & _ & Hlen & Hpre & Hanchor).
    split.
    + exists anchor. split; [|by apply is_heading_id_spec].
      rewrite Hsplit. rewrite lookup_app_r by lia.
      by rewrite Hlen, Nat.sub_diag.
    + intros j line Hj Hline. apply is_heading_id_false.
      rewrite Forall_forall in Hpre. apply Hpre.
      apply list_elem_of_lookup. exists j.
      by rewrite lookup_take_lt.
  - intros line Hline. apply is_heading_id_false.
    apply first_heading_id_from_None in Hfind.
    rewrite Forall_forall in Hfind. by apply Hfind.
Qed.

Lemma py_insert_lookup {A} (i : nat) (x : A) (l : list A) :
  i ≤ length l → py_insert i x l !! i = Some x.
Proof.
  intros Hi. unfold py_insert.
  rewrite lookup_app_r by (rewrite length_take; lia).
  rewrite length_take, Nat.min_l by lia. by rewrite Nat.sub_diag.
Qed.





Lemma find_first_heading_id_lt (d : AsciiDocFile) (i : nat) :
  find_first_heading_id d = Some i →
  ∃ anchor, lines d !! i = Some anchor ∧ i < length (lines d).
Proof.
  intros Hfind.
  destruct (find_first_heading_id_split d i Hfind)
    as (anchor & post & _ & Hdrop & _).
  assert (Hanchor : lines d !! i = Some anchor).
  { rewrite <- (Nat.add_0_r i), <- lookup_drop. by rewrite Hdrop. }
  exists anchor. split; [done | by eapply lookup_lt_Some].
Qed.



(** C6.  When the document has no anchor, [add_content_type], for any type
    name, and [add_review_marker] return false and hand back the document and
    the world as they were: the lines are unchanged, the trace has no new
    write and the file system is the same. *)
Theorem insertion_failure_is_noop (d : AsciiDocFile) (w : World) (X : str) :
  find_first_heading_id d = None →
  add_content_type X d w = (false, d, w)
  ∧ add_review_marker d w = (false, d, w).
Proof.
  intros Hfind. rewrite add_content_type_eq, add_review_marker_eq.
  by rewrite !insert_line_None.
Qed.

Lemma insertion_failure_example :
  let d := {| path := lit "c.adoc";
              content := lit "= C" ++ [10%N];
              lines := [lit "= C" ++ [10%N]] |} in
  let w := {| disk := {[ path d := TextFile (content d) ]};
              maxyx := (24, 80)%Z; trace := [] |} in
  find_first_heading_id d = None
  ∧ add_content_type PROCEDURE d w = (false, d, w)
  ∧ add_review_marker d w = (false, d, w).
Proof.
  split; [reflexivity|].
  apply (insertion_failure_is_noop
           {| path := lit "c.adoc";
              content := lit "= C" ++ [10%N];
              lines := [lit "= C" ++ [10%N]] |}).
  reflexivity.
Defined.

(** C8.  [has_content_type] is true exactly when the text of the document
    has the token [:_mod-docs-content-type:] as a contiguous run of
    characters.  A file that is listed, readable and free of the token becomes
    a candidate; a file whose text holds the token anywhere never does. *)
Theorem has_content_type_literal (rglob_sorted : list Path) (w : World) :
  (∀ d, has_content_type d = true ↔
        ∃ pre post, content d = pre ++ lit ":_mod-docs-content-type:" ++ post)
  ∧ (∀ d, d ∈ _find_asciidoc_files rglob_sorted w →
          ¬ ∃ pre post, content d = pre ++ lit ":_mod-docs-content-type:" ++ post)
  ∧ (∀ p pre post,
        read_text p w = Some (pre ++ lit ":_mod-docs-content-type:" ++ post) →
        ∀ d, d ∈ _find_asciidoc_files rglob_sorted w → path d ≠ p)
  ∧ (∀ p text,
        p ∈ rglob_sorted → read_text p w = Some text →
        (¬ ∃ pre post, text = pre ++ lit ":_mod-docs-content-type:" ++ post) →
        ∃ d, d ∈ _find_asciidoc_files rglob_sorted w
             ∧ path d = p ∧ content d = text).
Proof.
  assert (Hlit : ∀ d, has_content_type d = true ↔
            ∃ pre post, content d = pre ++ lit ":_mod-docs-content-type:" ++ post).
  { intros d. unfold has_content_type. apply str_in_spec. }
  split; [done|]. repeat split.
  - intros d (p & text & _ & _ & -> & Hno)%elem_of_find_asciidoc_files Hin.
    cbn [content] in Hin. apply (str_in_spec marker_token) in Hin.
    congruence.
  - intros p pre post Hread d
      (q & text & _ & Hq & -> & Hno)%elem_of_find_asciidoc_files Heq.
    cbn [path] in Heq. subst q.
    assert (text = pre ++ lit ":_mod-docs-content-type:" ++ post) as ->
      by congruence.
    assert (str_in marker_token (pre ++ marker_token ++ post) = true) as Hin
      by (apply str_in_spec; eauto).
    unfold marker_token in *. congruence.
  - intros p text Hp Hread Hno.
    exists {| path := p; content := text; lines := splitlines text |}.
    split; [|done]. apply elem_of_find_asciidoc_files.
    exists p, text. repeat split; try done.
    destruct (str_in marker_token text) eqn:Hin; [|done].
    apply str_in_spec in Hin. by destruct Hno.
Qed.

Lemma has_content_type_example :
  let a := lit "a.adoc" in
  let b := lit "b.adoc" in
  let tagged := lit "= A" ++ [10%N] ++ lit ":_mod-docs-content-type: CONCEPT" ++ [10%N] in
  let w := {| disk := {[ a := TextFile tagged ]};
              maxyx := (24, 80)%Z; trace := [] |} in
  read_text a w = Some tagged
  ∧ ∀ d, d ∈ _find_asciidoc_files [a; b] w → path d ≠ a.
Proof.
  split; [reflexivity|].
  pose proof (has_content_type_literal [lit "a.adoc"; lit "b.adoc"]
                {| disk := {[ lit "a.adoc" :=
                     TextFile (lit "= A" ++ [10%N]
                               ++ lit ":_mod-docs-content-type: CONCEPT" ++ [10%N]) ]};
                   maxyx := (24, 80)%Z; trace := [] |})
    as (_ & _ & H & _).
  apply (H (lit "a.adoc") (lit "= A" ++ [10%N]) (lit " CONCEPT" ++ [10%N])).
  reflexivity.
Defined.

(** The match is literal: a change of case or an extra space is no marker. *)
Example has_content_type_variants :
  has_content_type {| path := []; content := lit ":_MOD-DOCS-CONTENT-TYPE: X"; lines := [] |} = false
  ∧ has_content_type {| path := []; content := lit ":_mod-docs-content-type : X"; lines := [] |} = false
  ∧ has_content_type {| path := []; content := lit "x :_mod-docs-content-type:X"; lines := [] |} = true.
Proof. by vm_compute. Qed.

(** C10.  The text in [content] is the text read when the document was
    loaded, and neither insertion touches it, so [has_content_type] keeps its
    load-time answer.  After a successful [add_content_type] on a document
    loaded without the token, it still answers false although the new line
    is among the lines and the file on disk now holds the token; after a
    successful [add_review_marker] it keeps its answer as well, while the
    lines and the file hold the review line. *)
Theorem content_is_not_refreshed (p : Path) (w0 w : World) (d : AsciiDocFile)
    (X : str) :
  AsciiDocFile_init p w0 = Some d →
  read_text p w0 = Some (content d)
  ∧ lines d = splitlines (content d)
  ∧ ∃ ok1 d1 w1 ok2 d2 w2,
      add_content_type X d w = (ok1, d1, w1)
      ∧ add_review_marker d w = (ok2, d2, w2)
      ∧ content d1 = content d ∧ has_content_type d1 = has_content_type d
      ∧ content d2 = content d ∧ has_content_type d2 = has_content_type d
      ∧ (ok1 = true →
           content_type_line X ∈ lines d1
           ∧ read_text (path d) w1 = Some (join (lines d1))
           ∧ str_in marker_token (join (lines d1)) = true
           ∧ (has_content_type d = false → has_content_type d1 = false))
      ∧ (ok2 = true →
           review_line ∈ lines d2
           ∧ read_text (path d) w2 = Some (join (lines d2))
           ∧ str_in (lit "TODO: needs-type-review") (join (lines d2)) = true
           ∧ (has_content_type d = false → has_content_type d2 = false)).
Proof.
  intros Hinit. unfold AsciiDocFile_init in Hinit.
  destruct (read_text p w0) as [text|] eqn:Hread; [|done].
  injection Hinit as <-. simpl. split; [done|]. split; [done|].
  set (d := {| path := p; content := text; lines := splitlines text |}).
  rewrite add_content_type_eq, add_review_marker_eq.
  assert (Hgen : ∀ new_line token,
            (∃ pre post, new_line = pre ++ token ++ post) →
            ∃ ok d' w',
              insert_line new_line d w = (ok, d', w')
              ∧ content d' = content d
              ∧ has_content_type d' = has_content_type d
              ∧ (ok = true →
                   new_line ∈ lines d'
                   ∧ read_text (path d) w' = Some (join (lines d'))
                   ∧ str_in token (join (lines d')) = true
                   ∧ (has_content_type d = false → has_content_type d' = false))).
  { intros new_line token (pre & post & Hnew).
    destruct (find_first_heading_id d) as [i|] eqn:Hfind.
    - rewrite (insert_line_Some _ _ _ _ Hfind).
      eexists _, _, _. split; [reflexivity|]. simpl.
      split; [done|]. split; [done|]. intros _.
      destruct (find_first_heading_id_lt d i Hfind) as (anchor & _ & Hlt).
      repeat split.
      + apply list_elem_of_lookup. exists i. apply py_insert_lookup.
        apply Nat.lt_le_incl, Hlt.
      + apply read_text_write_text.
      + apply str_in_spec. unfold py_insert, join.
        rewrite concat_app. simpl. rewrite Hnew.
        exists (concat (take i (splitlines text)) ++ pre),
               (post ++ concat (drop i (splitlines text))).
        by rewrite <- !app_assoc.
      + done.
    - rewrite (insert_line_None _ _ _ Hfind).
      eexists _, _, _. split; [reflexivity|]. by repeat split. }
  destruct (Hgen (content_type_line X) marker_token)
    as (ok1 & d1 & w1 & E1 & ? & ? & ?).
  { exists [], (lit " " ++ X ++ [10%N]). reflexivity. }
  destruct (Hgen review_line (lit "TODO: needs-type-review"))
    as (ok2 & d2 & w2 & E2 & ? & ? & ?).
  { exists (lit "// "), [10%N]. reflexivity. }
  exists ok1, d1, w1, ok2, d2, w2. by rewrite E1, E2.
Qed.

Lemma content_is_not_refreshed_example :
  let p := lit "b.adoc" in
  let text := lit "= B" ++ [10%N] ++ lit "[id=b]" ++ [10%N] in
  let w := {| disk := {[ p := TextFile text ]};
              maxyx := (24, 80)%Z; trace := [] |} in
  let d := {| path := p; content := text; lines := splitlines text |} in
  AsciiDocFile_init p w = Some d
  ∧ read_text p w = Some (content d).
Proof.
  split; [reflexivity|].
  apply (content_is_not_refreshed (lit "b.adoc")
           {| disk := {[ lit "b.adoc" :=
                TextFile (lit "= B" ++ [10%N] ++ lit "[id=b]" ++ [10%N]) ]};
              maxyx := (24, 80)%Z; trace := [] |}
           {| disk := ∅; maxyx := (24, 80)%Z; trace := [] |}
           {| path := lit "b.adoc";
              content := lit "= B" ++ [10%N] ++ lit "[id=b]" ++ [10%N];
              lines := splitlines (lit "= B" ++ [10%N] ++ lit "[id=b]" ++ [10%N]) |}
           CONCEPT).
  reflexivity.
Defined.

(** ** The review session: helper lemmas *)

Lemma index_pos_in_range (i : Z) (n : nat) :
  (0 ≤ i < Z.of_nat n)%Z → index_pos i n = Some (Z.to_nat i).
Proof.
  intros [H0 Hn]. unfold index_pos.
  by rewrite (proj2 (Z.leb_le _ _) H0), (proj2 (Z.ltb_lt _ _) Hn).
Qed.

Lemma index_pos_Some (i : Z) (n pos : nat) :
  index_pos i n = Some pos → pos < n ∧ (i < Z.of_nat n)%Z.
Proof.
  unfold index_pos. intros H.
  destruct ((0 <=? i) && (i <? Z.of_nat n))%Z eqn:H1.
  - apply andb_true_iff in H1 as [?%Z.leb_le ?%Z.ltb_lt].
    injection H as <-. lia.
  - destruct ((- Z.of_nat n <=? i) && (i <? 0))%Z eqn:H2; [|done].
    apply andb_true_iff in H2 as [?%Z.leb_le ?%Z.ltb_lt].
    injection H as <-. lia.
Qed.

Lemma set_same_lines (pos : nat) (f f' : AsciiDocFile) (fs : list AsciiDocFile) :
  fs !! pos = Some f → path f' = path f → content f' = content f →
  <[pos := {| path := path f'; content := content f'; lines := lines f |}]>
    (<[pos := f']> fs) = fs.
Proof.
  intros Hf -> ->. rewrite list_insert_insert_eq.
  apply list_insert_id. by destruct f.
Qed.

Section SessionProperties.

Variable addstr_raises : Z * Z → Z → Z → str → bool.

Lemma show_status_frame (msg : str) (pair ms : Z) (w : World) :
  disk (show_status addstr_raises msg pair ms w) = disk w
  ∧ maxyx (show_status addstr_raises msg pair ms w) = maxyx w
  ∧ writes (trace (show_status addstr_raises msg pair ms w)) = writes (trace w).
Proof.
  unfold show_status. destruct (maxyx w) as [height width] eqn:Hm.
  destruct (addstr_raises _ _ _ _); simpl; [done|].
  rewrite writes_app. simpl. by rewrite app_nil_r.
Qed.

Lemma read_text_show_status (p : Path) (msg : str) (pair ms : Z) (w : World) :
  read_text p (show_status addstr_raises msg pair ms w) = read_text p w.
Proof.
  unfold read_text. by rewrite (proj1 (show_status_frame msg pair ms w)).
Qed.

(** What a mutating command does when a document is focused. *)
Lemma exec_mutating (c : Command) (s : AsciiDocTUI) (w : World)
    (pos : nat) (f : AsciiDocFile) :
  mutating c = true →
  index_pos (current_index s) (length (files s)) = Some pos →
  files s !! pos = Some f →
  ∃ ok f' w1 w2,
    insert_line (inserted_line c) f w = (ok, f', w1)
    ∧ exec addstr_raises c s w =
        Some ({| directory := directory s;
                 files := <[pos := f']> (files s);
                 current_index := current_index s + 1;
                 scroll_offset := 0;
                 last_modification := Some (current_index s, lines f) |}, w2)
    ∧ disk w2 = disk w1
    ∧ writes (trace w2) = writes (trace w1)
    ∧ (ok = false → w2 = w1).
Proof.
  intros Hc Hpos Hf.
  destruct (index_pos_Some _ _ _ Hpos) as [_ Hlt].
  assert (Hnext : ∀ fs lm,
            length fs = length (files s) →
            _next_file {| directory := directory s; files := fs;
                          current_index := current_index s;
                          scroll_offset := scroll_offset s;
                          last_modification := lm |}
            = {| directory := directory s; files := fs;
                 current_index := current_index s + 1;
                 scroll_offset := 0; last_modification := lm |}).
  { intros fs lm Hlen. unfold _next_file. cbn [current_index files].
    rewrite Hlen. by rewrite (proj2 (Z.ltb_lt _ _) Hlt). }
  destruct c; try discriminate; cbn [exec inserted_line].
  - unfold _add_type. rewrite Hpos. cbn [mbind option_bind]. rewrite Hf.
    cbn [mbind option_bind]. rewrite add_content_type_eq.
    destruct (insert_line _ f w) as [[ok f'] w1].
    rewrite Hnext by apply length_insert.
    eexists ok, f', w1, _. split; [done|]. split; [reflexivity|].
    destruct ok; [|done].
    destruct (show_status_frame
                (lit "Added " ++ content_type ++ lit " to " ++ path_name (path f'))
                2 1000 w1) as (? & ? & ?).
    done.
  - unfold _mark_for_review. rewrite Hpos. cbn [mbind option_bind]. rewrite Hf.
    cbn [mbind option_bind]. rewrite add_review_marker_eq.
    destruct (insert_line _ f w) as [[ok f'] w1].
    rewrite Hnext by apply length_insert.
    eexists ok, f', w1, _. split; [done|]. split; [reflexivity|].
    destruct ok; [|done].
    destruct (show_status_frame
                (lit "Marked " ++ path_name (path f') ++ lit " for review")
                3 1000 w1) as (? & ? & ?).
    done.
Qed.

Lemma undo_Some (s : AsciiDocTUI) (w : World) (file_index : Z)
    (original_lines : list str) (pos : nat) (f : AsciiDocFile) :
  last_modification s = Some (file_index, original_lines) →
  index_pos file_index (length (files s)) = Some pos →
  files s !! pos = Some f →
  _undo addstr_raises s w =
    Some ({| directory := directory s;
             files := <[pos := {| path := path f; content := content f;
                                  lines := original_lines |}]> (files s);
             current_index := file_index;
             scroll_offset := 0;
             last_modification := None |},
          show_status addstr_raises
            (lit "Undid changes to " ++ path_name (path f)) 2 2000
            (write_text (path f) (join original_lines) w)).
Proof.
  intros Hlm Hpos Hf. unfold _undo. rewrite Hlm, Hpos.
  cbn [mbind option_bind]. by rewrite Hf.
Qed.

Lemma undo_None (s : AsciiDocTUI) (w : World) :
  last_modification s = None →
  _undo addstr_raises s w =
    Some (s, show_status addstr_raises (lit "Nothing to undo") 3 2000 w).
Proof. unfold _undo. by intros ->. Qed.

(** The outcome of [insert_line] on the focused document. *)
Lemma insert_line_frame (new_line : str) (f : AsciiDocFile) (w : World) :
  ∃ ok f' w1,
    insert_line new_line f w = (ok, f', w1)
    ∧ path f' = path f ∧ content f' = content f
    ∧ (find_first_heading_id f = None → ok = false ∧ f' = f ∧ w1 = w)
    ∧ (∀ i, find_first_heading_id f = Some i →
            ok = true
            ∧ lines f' = py_insert i new_line (lines f)
            ∧ w1 = write_text (path f) (join (lines f')) w).
Proof.
  unfold insert_line. destruct (find_first_heading_id f) as [i|].
  - eexists _, _, _. split; [reflexivity|]. simpl.
    do 3 (split; [done|]). by intros j [= <-].
  - eexists _, _, _. split; [reflexivity|]. by do 3 (split; [done|]).
Qed.

(** Navigation changes neither the documents, nor the undo slot, nor the
    world. *)
Lemma exec_navigating (c : Command) (s s' : AsciiDocTUI) (w w' : World) :
  navigating c = true →
  exec addstr_raises c s w = Some (s', w') →
  files s' = files s ∧ last_modification s' = last_modification s ∧ w' = w.
Proof.
  destruct c; try discriminate; intros _; cbn [exec].
  - intros [= <- <-]. unfold _next_file.
    by destruct (_ <? _)%Z.
  - intros [= <- <-]. unfold _prev_file.
    by destruct (_ >? _)%Z.
  - unfold _scroll_down.
    destruct (index_pos _ _) as [pos|]; [|done]. cbn [mbind option_bind].
    destruct (files s !! pos) as [f|]; [|done]. cbn [mbind option_bind].
    destruct (_ <? _)%Z; by intros [= <- <-].
  - by intros [= <- <-].
Qed.

Lemma exec_all_navigating (cs : list Command) (s s' : AsciiDocTUI) (w w' : World) :
  forallb navigating cs = true →
  exec_all addstr_raises cs s w = Some (s', w') →
  files s' = files s ∧ last_modification s' = last_modification s ∧ w' = w.
Proof.
  revert s w. induction cs as [|c cs IH]; intros s w; cbn [forallb exec_all].
  - by intros _ [= <- <-].
  - intros [Hc Hcs]%andb_true_iff.
    destruct (exec addstr_raises c s w) as [[s1 w1]|] eqn:Hexec; [|done].
    cbn [mbind option_bind]. intros Hall.
    destruct (exec_navigating _ _ _ _ _ Hc Hexec) as (Hf & Hl & ->).
    destruct (IH _ _ Hcs Hall) as (Hf' & Hl' & ->).
    by rewrite Hf', Hl'.
Qed.

(** ** The review session: claims *)

(** C7.  A tag or flag command on a focused document moves the cursor
    forward by exactly one and sets the scroll offset to 0, whether or not
    the document has an anchor.  [_next_file] and [_prev_file] keep a cursor
    that lies in [0, len(files)] inside that interval; [_next_file] does
    nothing at [len(files)] and [_prev_file] does nothing at 0. *)
Theorem cursor_advancement (c : Command) (s : AsciiDocTUI) (w : World) :
  (mutating c = true →
   (0 ≤ current_index s < Z.of_nat (length (files s)))%Z →
   ∃ s' w', exec addstr_raises c s w = Some (s', w')
            ∧ current_index s' = (current_index s + 1)%Z
            ∧ scroll_offset s' = 0%Z
            ∧ length (files s') = length (files s))
  ∧ ((0 ≤ current_index s ≤ Z.of_nat (length (files s)))%Z →
     (0 ≤ current_index (_next_file s) ≤ Z.of_nat (length (files s)))%Z
     ∧ (0 ≤ current_index (_prev_file s) ≤ Z.of_nat (length (files s)))%Z
     ∧ files (_next_file s) = files s
     ∧ files (_prev_file s) = files s)
  ∧ ((current_index s < Z.of_nat (length (files s)))%Z →
     current_index (_next_file s) = (current_index s + 1)%Z
     ∧ scroll_offset (_next_file s) = 0%Z)
  ∧ ((current_index s > 0)%Z →
     current_index (_prev_file s) = (current_index s - 1)%Z
     ∧ scroll_offset (_prev_file s) = 0%Z)
  ∧ (current_index s = Z.of_nat (length (files s)) → _next_file s = s)
  ∧ (current_index s = 0%Z → _prev_file s = s).
Proof.
  repeat apply conj.
  - intros Hc Hrange.
    pose proof (index_pos_in_range _ _ Hrange) as Hpos.
    destruct (lookup_lt_is_Some_2 (files s) (Z.to_nat (current_index s)))
      as [f Hf]; [lia|].
    destruct (exec_mutating c s w _ f Hc Hpos Hf)
      as (ok & f' & w1 & w2 & _ & Hexec & _).
    eexists _, w2. split; [exact Hexec|]. cbn.
    by rewrite length_insert.
  - intros Hrange. unfold _next_file, _prev_file.
    destruct (current_index s <? _)%Z eqn:Hlt;
      destruct (current_index s >? 0)%Z eqn:Hgt; cbn;
      rewrite ?Z.ltb_lt, ?Z.ltb_ge, ?Z.gtb_gt in *; repeat split; lia.
  - intros Hlt. unfold _next_file.
    by rewrite (proj2 (Z.ltb_lt _ _) Hlt).
  - intros Hgt. unfold _prev_file.
    by rewrite (proj2 (Z.gtb_gt _ _) Hgt).
  - intros Heq. unfold _next_file. by rewrite Heq, Z.ltb_irrefl.
  - intros Heq. unfold _prev_file. by rewrite Heq.
Qed.

(** A mutating command followed by undo, and by a second undo. *)
Lemma mutate_then_undo (c : Command) (s : AsciiDocTUI) (w : World)
    (D : AsciiDocFile) :
  mutating c = true →
  (0 ≤ current_index s < Z.of_nat (length (files s)))%Z →
  files s !! Z.to_nat (current_index s) = Some D →
  ∃ s1 w1 s2 w2 s3 w3,
    exec addstr_raises c s w = Some (s1, w1)
    ∧ (∀ i, find_first_heading_id D = Some i →
            lines <$> files s1 !! Z.to_nat (current_index s)
            = Some (py_insert i (inserted_line c) (lines D)))
    ∧ _undo addstr_raises s1 w1 = Some (s2, w2)
    ∧ files s2 = files s
    ∧ files s2 !! Z.to_nat (current_index s) = Some D
    ∧ read_text (path D) w2 = Some (join (lines D))
    ∧ last_modification s2 = None
    ∧ current_index s2 = current_index s
    ∧ scroll_offset s2 = 0%Z
    ∧ _undo addstr_raises s2 w2 = Some (s3, w3)
    ∧ s3 = s2
    ∧ disk w3 = disk w2
    ∧ writes (trace w3) = writes (trace w2).
Proof.
  intros Hc Hrange HD.
  pose proof (index_pos_in_range _ _ Hrange) as Hpos.
  set (pos := Z.to_nat (current_index s)) in *.
  assert (Hlt : pos < length (files s)) by by eapply lookup_lt_Some.
  destruct (exec_mutating c s w pos D Hc Hpos HD)
    as (ok & f' & w1 & w2 & Hins & Hexec & _).
  destruct (insert_line_frame (inserted_line c) D w)
    as (ok0 & f0 & w0 & Hins0 & Hpath & Hcontent & _ & Hsome).
  rewrite Hins in Hins0. injection Hins0 as <- <- <-.
  set (s1 := {| directory := directory s;
                files := <[pos := f']> (files s);
                current_index := current_index s + 1;
                scroll_offset := 0;
                last_modification := Some (current_index s, lines D) |}) in *.
  assert (Hundo := undo_Some s1 w2 (current_index s) (lines D) pos f' eq_refl).
  cbn [files s1] in Hundo. rewrite length_insert in Hundo.
  specialize (Hundo Hpos (list_lookup_insert_eq _ _ _ Hlt)).
  rewrite (set_same_lines pos D f' (files s) HD Hpath Hcontent) in Hundo.
  eexists s1, w2, _, _, _, _.
  split; [exact Hexec|]. split.
  { intros i Hi. destruct (Hsome i Hi) as (_ & Hlines & _).
    cbn [files s1]. rewrite list_lookup_insert_eq by done.
    cbn. by rewrite Hlines. }
  split; [exact Hundo|]. cbn [files current_index scroll_offset last_modification].
  do 2 (split; [done|]). split.
  { rewrite read_text_show_status, Hpath. apply read_text_write_text. }
  do 3 (split; [done|]). split; [by apply undo_None|].
  split; [done|].
  destruct (show_status_frame (lit "Nothing to undo") 3 2000
              (show_status addstr_raises
                 (lit "Undid changes to " ++ path_name (path f')) 2 2000
                 (write_text (path f') (join (lines D)) w2)))
    as (? & _ & ?).
  done.
Qed.


(** C1, amended.  [_add_type] and [_mark_for_review] take the snapshot
    before they try the insertion.  When the focused document [D] has no
    anchor, the command leaves the documents and the world as they are,
    moves the cursor on, and the undo slot then holds the index of [D] with
    its unchanged lines in place of what it held before.  An undo issued
    next is carried out in full: it writes the same lines of [D] to its
    file, shows the notice of a completed undo, empties the slot and puts
    the cursor back on [D]. *)
Theorem failed_insertion_snapshot (c : Command) (s : AsciiDocTUI) (w : World)
    (D : AsciiDocFile) :
  mutating c = true →
  (0 ≤ current_index s < Z.of_nat (length (files s)))%Z →
  files s !! Z.to_nat (current_index s) = Some D →
  find_first_heading_id D = None →
  ∃ s1 s2 w2,
    exec addstr_raises c s w = Some (s1, w)
    ∧ files s1 = files s
    ∧ last_modification s1 = Some (current_index s, lines D)
    ∧ current_index s1 = (current_index s + 1)%Z
    ∧ scroll_offset s1 = 0%Z
    ∧ _undo addstr_raises s1 w = Some (s2, w2)
    ∧ files s2 = files s
    ∧ last_modification s2 = None
    ∧ current_index s2 = current_index s
    ∧ scroll_offset s2 = 0%Z
    ∧ w2 = show_status addstr_raises
             (lit "Undid changes to " ++ path_name (path D)) 2 2000
             (write_text (path D) (join (lines D)) w)
    ∧ writes (trace w2) = writes (trace w) ++ [(path D, join (lines D))]
    ∧ read_text (path D) w2 = Some (join (lines D)).
Proof.
  intros Hc Hrange HD Hfind.
  pose proof (index_pos_in_range _ _ Hrange) as Hpos.
  set (pos := Z.to_nat (current_index s)) in *.
  assert (Hlt : pos < length (files s)) by by eapply lookup_lt_Some.
  destruct (exec_mutating c s w pos D Hc Hpos HD)
    as (ok & f' & w1 & w2 & Hins & Hexec & _ & _ & Hsame).
  rewrite (insert_line_None _ _ _ Hfind) in Hins.
  injection Hins as <- <- <-. rewrite (Hsame eq_refl) in Hexec.
  rewrite (list_insert_id _ _ _ HD) in Hexec.
  set (s1 := {| directory := directory s;
                files := files s;
                current_index := current_index s + 1;
                scroll_offset := 0;
                last_modification := Some (current_index s, lines D) |}) in *.
  assert (Hundo := undo_Some s1 w (current_index s) (lines D) pos D
                     eq_refl Hpos HD).
  replace {| path := path D; content := content D; lines := lines D |}
    with D in Hundo by by destruct D.
  cbn [files s1] in Hundo. rewrite (list_insert_id _ _ _ HD) in Hundo.
  eexists s1, _, _. split; [exact Hexec|].
  do 4 (split; [done|]). split; [exact Hundo|].
  cbn [files current_index scroll_offset last_modification].
  do 5 (split; [done|]). split.
  - destruct (show_status_frame
                (lit "Undid changes to " ++ path_name (path D)) 2 2000
                (write_text (path D) (join (lines D)) w)) as (_ & _ & ->).
    cbn [write_text trace]. by rewrite writes_app.
  - rewrite read_text_show_status. apply read_text_write_text.
Qed.

(** C5.  Command [A] edits a focused document, the operator moves around,
    command [B] edits the document [DB] then focused, and undo follows.  The
    undo succeeds and the list of documents is the one that [A] left: [DB]
    has its lines from before [B], the document that [A] edited keeps the
    line that [A] inserted, the file of [DB] holds the join of its restored
    lines, no other file is touched, and the slot is empty, so that a
    further undo changes nothing. *)
Theorem single_slot_undo (A B : Command) (nav : list Command)
    (s s1 s2 s3 : AsciiDocTUI) (w w1 w2 w3 : World) (DB : AsciiDocFile) :
  mutating A = true → mutating B = true → forallb navigating nav = true →
  (0 ≤ current_index s < Z.of_nat (length (files s)))%Z →
  exec addstr_raises A s w = Some (s1, w1) →
  exec_all addstr_raises nav s1 w1 = Some (s2, w2) →
  (0 ≤ current_index s2 < Z.of_nat (length (files s2)))%Z →
  files s2 !! Z.to_nat (current_index s2) = Some DB →
  exec addstr_raises B s2 w2 = Some (s3, w3) →
  ∃ s4 w4 s5 w5,
    _undo addstr_raises s3 w3 = Some (s4, w4)
    ∧ files s4 = files s1
    ∧ files s4 !! Z.to_nat (current_index s2) = Some DB
    ∧ (∀ DA i, files s !! Z.to_nat (current_index s) = Some DA →
               find_first_heading_id DA = Some i →
               lines <$> files s4 !! Z.to_nat (current_index s)
               = Some (py_insert i (inserted_line A) (lines DA)))
    ∧ current_index s4 = current_index s2
    ∧ last_modification s4 = None
    ∧ read_text (path DB) w4 = Some (join (lines DB))
    ∧ (∀ p, p ≠ path DB → read_text p w4 = read_text p w2)
    ∧ _undo addstr_raises s4 w4 = Some (s5, w5)
    ∧ s5 = s4 ∧ disk w5 = disk w4.
Proof.
  intros HA HB Hnav HrangeA HexecA Hexecnav HrangeB HDB HexecB.
  destruct (exec_all_navigating _ _ _ _ _ Hnav Hexecnav) as (Hfiles & _ & ->).
  (* the round trip of B *)
  destruct (mutate_then_undo B s2 w1 DB HB HrangeB HDB)
    as (s3' & w3' & s4 & w4 & s5 & w5 & HexecB' & _ & Hundo & Hfs & Hlook
        & Hread & Hlm & Hci & _ & Hundo2 & -> & Hdisk & _).
  rewrite HexecB in HexecB'. injection HexecB' as Hs3 Hw3. subst s3' w3'.
  exists s4, w4, s4, w5. split; [done|]. split; [congruence|].
  split; [done|]. split.
  { intros DA i HDA Hi. rewrite Hfs, Hfiles.
    pose proof (index_pos_in_range _ _ HrangeA) as Hpos.
    destruct (exec_mutating A s w _ DA HA Hpos HDA)
      as (ok & f' & wa & wb & Hins & HexecA' & _).
    rewrite HexecA in HexecA'. injection HexecA' as -> _.
    destruct (insert_line_frame (inserted_line A) DA w)
      as (ok0 & f0 & w0 & Hins0 & _ & _ & _ & Hsome).
    rewrite Hins in Hins0. injection Hins0 as <- <- <-.
    destruct (Hsome i Hi) as (_ & Hlines & _).
    cbn [files]. rewrite list_lookup_insert_eq by by eapply lookup_lt_Some.
    cbn. by rewrite Hlines. }
  do 3 (split; [done|]). split; [|done].
  intros p Hp.
  (* the writes of B and of the undo go to the file of DB only *)
  pose proof (index_pos_in_range _ _ HrangeB) as Hpos.
  destruct (exec_mutating B s2 w1 _ DB HB Hpos HDB)
    as (ok & f' & wa & wb & Hins & HexecB' & Hdiskb & _).
  rewrite HexecB in HexecB'. injection HexecB' as Hs3 Hw3.
  destruct (insert_line_frame (inserted_line B) DB w1)
    as (ok0 & f0 & w0 & Hins0 & Hpath & _ & Hnone & Hsome).
  rewrite Hins in Hins0. injection Hins0 as <- <- <-.
  assert (Hwa : read_text p wa = read_text p w1).
  { destruct (find_first_heading_id DB) as [i|] eqn:Hfind.
    - destruct (Hsome i eq_refl) as (_ & _ & ->).
      by apply read_text_write_text_ne.
    - by destruct (Hnone eq_refl) as (_ & _ & ->). }
  assert (Hwb : read_text p w3 = read_text p w1).
  { unfold read_text in *. by rewrite Hw3, Hdiskb. }
  rewrite <- Hwb.
  assert (Hlt : Z.to_nat (current_index s2) < length (files s2))
    by by eapply lookup_lt_Some.
  subst s3.
  match type of Hundo with
  | _undo _ ?st _ = _ =>
      pose proof (undo_Some st w3 (current_index s2) (lines DB)
                    (Z.to_nat (current_index s2)) f' eq_refl) as Hu
  end.
  cbn [files] in Hu. rewrite length_insert in Hu.
  specialize (Hu Hpos (list_lookup_insert_eq _ _ _ Hlt)).
  rewrite Hu in Hundo. injection Hundo as _ Hw4. rewrite <- Hw4.
  rewrite read_text_show_status.
  apply read_text_write_text_ne. by rewrite Hpath.
Qed.




End SessionProperties.

(** ** The claims on the small session *)

Example session0_files : files session0 = [doc_b; doc_c; doc_e].
Proof. by vm_compute. Qed.

(** C1, as stated, fails.  After a successful tag of [b.adoc] the slot
    holds the snapshot of [b.adoc].  The tag of [c.adoc], which has no
    anchor, fails and yet replaces that snapshot by one of [c.adoc].  The
    undo that follows is no empty undo: it writes [c.adoc], moves the cursor
    back, and leaves [b.adoc] tagged. *)
Lemma failed_insertion_replaces_snapshot :
  let '(s1, w1) := after [Tag CONCEPT] in
  let '(s2, w2) := after [Tag CONCEPT; Tag PROCEDURE] in
  let '(s3, w3) := after [Tag CONCEPT; Tag PROCEDURE; Undo] in
  exec never_raises (Tag CONCEPT) session0 world0 = Some (s1, w1)
  ∧ files s1 !! 1 = Some doc_c
  ∧ find_first_heading_id doc_c = None
  ∧ exec never_raises (Tag PROCEDURE) s1 w1 = Some (s2, w2)
  ∧ last_modification s1 = Some (0%Z, lines doc_b)
  ∧ last_modification s2 = Some (1%Z, lines doc_c)
  ∧ last_modification s2 ≠ last_modification s1
  ∧ _undo never_raises s2 w2 = Some (s3, w3)
  ∧ current_index s2 = 2%Z
  ∧ current_index s3 = 1%Z
  ∧ writes (trace w3) = writes (trace w2) ++ [(path doc_c, text_c)]
  ∧ lines <$> files s3 !! 0
    = Some [lit "= B" ++ [10%N];
            lit ":_mod-docs-content-type: CONCEPT" ++ [10%N];
            lit "[id=b-intro]" ++ [10%N]].
Proof.
  vm_compute. repeat split; try reflexivity. intros [=].
Qed.

Lemma failed_insertion_snapshot_example :
  let '(s1, w1) := after [Tag CONCEPT] in
  find_first_heading_id doc_c = None
  ∧ ∃ s2 s3 w3,
      exec never_raises (Tag PROCEDURE) s1 w1 = Some (s2, w1)
      ∧ last_modification s2 = Some (1%Z, lines doc_c)
      ∧ _undo never_raises s2 w1 = Some (s3, w3)
      ∧ writes (trace w3) = writes (trace w1) ++ [(path doc_c, join (lines doc_c))].
Proof.
  split; [reflexivity|].
  destruct (failed_insertion_snapshot never_raises (Tag PROCEDURE)
              (fst (after [Tag CONCEPT])) (snd (after [Tag CONCEPT])) doc_c)
    as (s2 & s3 & w3 & Hexec & _ & Hlm & _ & _ & Hundo & _ & _ & _ & _ & _
        & Hwrites & _).
  - reflexivity.
  - by vm_compute.
  - reflexivity.
  - reflexivity.
  - by exists s2, s3, w3.
Defined.

Lemma cursor_advancement_example :
  mutating Flag = true
  ∧ (0 ≤ current_index session0 < Z.of_nat (length (files session0)))%Z
  ∧ ∃ s' w', exec never_raises Flag session0 world0 = Some (s', w')
             ∧ current_index s' = (current_index session0 + 1)%Z
             ∧ scroll_offset s' = 0%Z.
Proof.
  split; [reflexivity|]. split; [by vm_compute|].
  destruct (cursor_advancement never_raises Flag session0 world0)
    as (H & _).
  destruct (H eq_refl) as (s' & w' & ? & ? & ? & _); [by vm_compute|].
  by exists s', w'.
Defined.


Lemma single_slot_undo_example :
  let '(s1, w1) := after [Tag CONCEPT] in
  let '(s2, w2) := after [Tag CONCEPT; Advance] in
  let '(s3, w3) := after [Tag CONCEPT; Advance; Flag] in
  exec never_raises (Tag CONCEPT) session0 world0 = Some (s1, w1)
  ∧ exec never_raises Advance s1 w1 = Some (s2, w2)
  ∧ exec never_raises Flag s2 w2 = Some (s3, w3)
  ∧ files s2 !! Z.to_nat (current_index s2) = Some doc_e
  ∧ ∃ s4 w4,
      _undo never_raises s3 w3 = Some (s4, w4)
      ∧ files s4 = files s1
      ∧ files s4 !! Z.to_nat (current_index s2) = Some doc_e
      ∧ last_modification s4 = None.
Proof.
  do 4 (split; [reflexivity|]).
  destruct (single_slot_undo never_raises (Tag CONCEPT) Flag [Advance]
              session0
              (fst (after [Tag CONCEPT]))
              (fst (after [Tag CONCEPT; Advance]))
              (fst (after [Tag CONCEPT; Advance; Flag]))
              world0
              (snd (after [Tag CONCEPT]))
              (snd (after [Tag CONCEPT; Advance]))
              (snd (after [Tag CONCEPT; Advance; Flag]))
              doc_e)
    as (s4 & w4 & _ & _ & Hundo & Hfiles & Hlook & _ & _ & Hlm & _).
  - reflexivity.
  - reflexivity.
  - reflexivity.
  - by vm_compute.
  - reflexivity.
  - reflexivity.
  - by vm_compute.
  - reflexivity.
  - reflexivity.
  - by exists s4, w4.
Defined.


(** * Further properties of the code *)

(** ** Scrolling *)

Lemma scroll_up_iter (n : nat) (s : AsciiDocTUI) :
  scroll_offset (Nat.iter (S n) _scroll_up s)
  = Z.max 0 (scroll_offset s - 10 * Z.of_nat (S n)).
Proof.
  induction n as [|n IH].
  - cbn [Nat.iter nat_rect _scroll_up scroll_offset]. lia.
  - change (Nat.iter (S (S n)) _scroll_up s)
      with (_scroll_up (Nat.iter (S n) _scroll_up s)).
    unfold _scroll_up at 1. cbn [scroll_offset]. rewrite IH. lia.
Qed.

(** X1.  [_scroll_up] never makes the offset negative, moves the view up by
    at most 10 lines, leaves the documents, the cursor and the undo slot
    alone, and brings the view to the top when pressed often enough. *)
Theorem scroll_up_bounds (s : AsciiDocTUI) :
  (0 ≤ scroll_offset (_scroll_up s))%Z
  ∧ ((0 ≤ scroll_offset s)%Z →
     (scroll_offset s - 10 ≤ scroll_offset (_scroll_up s) ≤ scroll_offset s)%Z)
  ∧ files (_scroll_up s) = files s
  ∧ current_index (_scroll_up s) = current_index s
  ∧ last_modification (_scroll_up s) = last_modification s
  ∧ (∀ n, (scroll_offset s ≤ 10 * Z.of_nat n)%Z → 0 < n →
          scroll_offset (Nat.iter n _scroll_up s) = 0%Z).
Proof.
  unfold _scroll_up at 1 2 3 4 5. cbn [scroll_offset files current_index last_modification].
  repeat split; try lia.
  intros [|n] Hn Hpos; [lia|]. rewrite scroll_up_iter. lia.
Qed.

Lemma scroll_up_bounds_example :
  let s := {| directory := []; files := [doc_b]; current_index := 0;
              scroll_offset := 25; last_modification := None |} in
  (0 ≤ scroll_offset s)%Z
  ∧ (scroll_offset s - 10 ≤ scroll_offset (_scroll_up s) ≤ scroll_offset s)%Z
  ∧ scroll_offset (Nat.iter 3 _scroll_up s) = 0%Z.
Proof.
  destruct (scroll_up_bounds
              {| directory := []; files := [doc_b]; current_index := 0;
                 scroll_offset := 25; last_modification := None |})
    as (_ & H1 & _ & _ & _ & H2).
  split; [by vm_compute|]. split.
  - apply H1. by vm_compute.
  - apply H2; [by vm_compute | lia].
Defined.

(** X2.  On a focused document of [n] lines shown in a window of
    [height - 4] rows, [_scroll_down] returns.  When lines remain below the
    window it moves the view down by at least 1 and at most 10 lines and
    never past the point where the window ends with the last line;
    otherwise it changes nothing.  The documents, the cursor and the undo
    slot stay as they are. *)
Theorem scroll_down_window (s : AsciiDocTUI) (w : World) (f : AsciiDocFile) :
  (0 ≤ current_index s < Z.of_nat (length (files s)))%Z →
  files s !! Z.to_nat (current_index s) = Some f →
  ∃ s',
    _scroll_down s w = Some s'
    ∧ files s' = files s
    ∧ current_index s' = current_index s
    ∧ last_modification s' = last_modification s
    ∧ ((scroll_offset s + (fst (maxyx w) - 4) < Z.of_nat (length (lines f)))%Z →
       (scroll_offset s < scroll_offset s' ≤ scroll_offset s + 10)%Z
       ∧ (scroll_offset s' + (fst (maxyx w) - 4)
          ≤ Z.of_nat (length (lines f)))%Z)
    ∧ ((Z.of_nat (length (lines f)) ≤ scroll_offset s + (fst (maxyx w) - 4))%Z →
       s' = s).
Proof.
  intros Hrange Hf. unfold _scroll_down.
  rewrite (index_pos_in_range _ _ Hrange). cbn [mbind option_bind].
  rewrite Hf. cbn [mbind option_bind].
  destruct (_ <? _)%Z eqn:Hlt.
  - apply Z.ltb_lt in Hlt. eexists. split; [reflexivity|].
    cbn [files current_index last_modification scroll_offset].
    repeat split; lia.
  - apply Z.ltb_ge in Hlt. exists s. repeat split; lia.
Qed.

Lemma scroll_down_window_example :
  (0 ≤ current_index session0 < Z.of_nat (length (files session0)))%Z
  ∧ ∃ s', _scroll_down session0 world0 = Some s' ∧ files s' = files session0.
Proof.
  split; [by vm_compute|].
  destruct (scroll_down_window session0 world0 doc_b)
    as (s' & H1 & H2 & _); [by vm_compute | reflexivity |].
  by exists s'.
Defined.

(** ** What the screen calls leave alone *)

Lemma same_files_refl (w : World) : same_files w w.
Proof. by repeat split. Qed.

Lemma same_files_trans (w1 w2 w3 : World) :
  same_files w1 w2 → same_files w2 w3 → same_files w1 w3.
Proof.
  intros (? & ? & ?) (? & ? & ?). repeat split; congruence.
Qed.


Section ScreenProperties.

Variable addstr_raises : Z * Z → Z → Z → str → bool.

Lemma addstr_inr (y x : Z) (t : str) (pair : Z) (w w' : World) :
  addstr addstr_raises y x t pair w = inr w' →
  same_files w w' ∧ trace w' = trace w ++ [EvAddStr y x t pair].
Proof.
  unfold addstr. destruct (addstr_raises _ _ _ _); [done|].
  intros [= <-]. repeat split. cbn [trace]. rewrite writes_app.
  cbn. by rewrite app_nil_r.
Qed.

Lemma addstr_inl (y x : Z) (t : str) (pair : Z) (w w' : World) (e : Exn) :
  addstr addstr_raises y x t pair w = inl (e, w') →
  (e = CursesError ∧ some_addstr_raises addstr_raises) ∧ w' = w.
Proof.
  unfold addstr. destruct (addstr_raises _ _ _ _) eqn:Hr; [|done].
  intros [= <- <-]. split; [|done]. split; [done|].
  by exists (maxyx w), y, x, t.
Qed.

Lemma addstr_pass_same_files (y x : Z) (t : str) (pair : Z) (w : World) :
  same_files w (addstr_pass addstr_raises y x t pair w).
Proof.
  unfold addstr_pass.
  destruct (addstr addstr_raises y x t pair w) as [[e w']|w'] eqn:H.
  - apply same_files_refl.
  - by apply addstr_inr in H as [? _].
Qed.

Lemma refresh_same_files (w : World) : same_files w (refresh w).
Proof.
  repeat split. cbn [refresh trace]. rewrite writes_app. cbn.
  by rewrite app_nil_r.
Qed.

Lemma show_status_same_files (msg : str) (pair ms : Z) (w : World) :
  same_files w (show_status addstr_raises msg pair ms w).
Proof. apply show_status_frame. Qed.

Lemma draw_lines_same_files (i width : Z) (ls : list str) (w : World) :
  same_files w (draw_lines addstr_raises i width ls w).
Proof.
  revert i w. induction ls as [|line ls IH]; intros i w; cbn [draw_lines].
  - apply same_files_refl.
  - eapply same_files_trans; [|apply IH].
    destruct (is_heading_id line); apply addstr_pass_same_files.
Qed.

(** [_draw_screen] paints and does nothing else; it raises [IndexError]
    only when no document is focused, and [curses.error] only when a call of
    [addstr] raises. *)
Lemma draw_screen_frame (s : AsciiDocTUI) (w : World) :
  match _draw_screen addstr_raises s w with
  | inr w' => same_files w w'
  | inl (e, w') =>
      same_files w w'
      ∧ (e = IndexError
         ∧ index_pos (current_index s) (length (files s))
           ≫= (λ pos, files s !! pos) = None
         ∨ e = CursesError ∧ some_addstr_raises addstr_raises)
  end.
Proof.
  unfold _draw_screen. destruct (maxyx w) as [height width] eqn:Hm.
  destruct (index_pos _ _ ≫= _) as [f|];
    [|split; [apply same_files_refl | by left]].
  destruct (addstr _ 0 0 _ 1 w) as [[e w']|w1] eqn:H1.
  { apply addstr_inl in H1 as [? ->].
    split; [apply same_files_refl | by right]. }
  apply addstr_inr in H1 as [H1 _].
  destruct (addstr _ 1 0 _ 3 w1) as [[e w']|w2] eqn:H2.
  { apply addstr_inl in H2 as [? ->]. split; [done | by right]. }
  apply addstr_inr in H2 as [H2 _].
  destruct (addstr _ 2 0 _ 0 w2) as [[e w']|w3] eqn:H3.
  { apply addstr_inl in H3 as [? ->].
    split; [by eapply same_files_trans | by right]. }
  apply addstr_inr in H3 as [H3 _].
  eapply same_files_trans; [exact H1|].
  eapply same_files_trans; [exact H2|].
  eapply same_files_trans; [exact H3|].
  eapply same_files_trans; [|apply refresh_same_files].
  eapply same_files_trans; [apply draw_lines_same_files|].
  destruct (_ <? _)%Z; [apply addstr_pass_same_files | apply same_files_refl].
Qed.

(** The closing screen keeps the session and the files; it raises only
    [curses.error], and only when a call of [addstr] raises. *)
Lemma closing_screen_frame (line : str) (keys : list Z) (s : AsciiDocTUI)
    (w : World) :
  let o := closing_screen addstr_raises line keys s w in
  outcome_session o = s
  ∧ same_files w (outcome_world o)
  ∧ (∀ e s' w', o = Raised e s' w' → e = CursesError ∧ some_addstr_raises addstr_raises).
Proof.
  unfold closing_screen.
  destruct (addstr _ 0 0 _ 0 w) as [[e w']|w1] eqn:H1.
  { apply addstr_inl in H1 as [? ->]. cbn.
    split; [done|]. split; [apply same_files_refl|]. by intros ??? [= <- _ _]. }
  apply addstr_inr in H1 as [H1 _].
  destruct (addstr _ 1 0 _ 0 w1) as [[e w']|w2] eqn:H2.
  { apply addstr_inl in H2 as [? ->]. cbn.
    split; [done|]. split; [done|]. by intros ??? [= <- _ _]. }
  apply addstr_inr in H2 as [H2 _].
  destruct keys; cbn; (split; [done|]);
    (split; [by eapply same_files_trans|]); by intros.
Qed.

(** ** What every command keeps *)

Lemma index_pos_nonneg (i : Z) (n pos : nat) :
  (0 ≤ i)%Z → index_pos i n = Some pos →
  pos = Z.to_nat i ∧ (i < Z.of_nat n)%Z.
Proof.
  intros Hi H. destruct (index_pos_Some _ _ _ H) as [_ Hlt].
  rewrite index_pos_in_range in H by lia. by injection H as <-.
Qed.

(** The shape of the result of a tag or flag command. *)
Lemma exec_mutating_inv (c : Command) (s s' : AsciiDocTUI) (w w' : World) :
  mutating c = true → cursor_ok s →
  exec addstr_raises c s w = Some (s', w') →
  ∃ f ok f' w1,
    (current_index s < Z.of_nat (length (files s)))%Z
    ∧ files s !! Z.to_nat (current_index s) = Some f
    ∧ insert_line (inserted_line c) f w = (ok, f', w1)
    ∧ s' = {| directory := directory s;
              files := <[Z.to_nat (current_index s) := f']> (files s);
              current_index := current_index s + 1;
              scroll_offset := 0;
              last_modification := Some (current_index s, lines f) |}
    ∧ same_files w1 w'.
Proof.
  intros Hc [H0 _] Hexec.
  destruct (index_pos (current_index s) (length (files s))) as [pos|] eqn:Hpos.
  2:{ destruct c; try discriminate; cbn [exec] in Hexec;
        unfold _add_type, _mark_for_review in Hexec;
        rewrite Hpos in Hexec; discriminate. }
  destruct (index_pos_nonneg _ _ _ H0 Hpos) as [-> Hlt].
  destruct (lookup_lt_is_Some_2 (files s) (Z.to_nat (current_index s)))
    as [f Hf]; [lia|].
  destruct (exec_mutating addstr_raises c s w _ f Hc Hpos Hf)
    as (ok & f' & w1 & w2 & Hins & Hexec' & Hdisk & Hwrites & Hsame).
  rewrite Hexec in Hexec'. injection Hexec' as -> ->.
  exists f, ok, f', w1. do 4 (split; [done|]).
  destruct ok.
  - clear Hsame. destruct c; try discriminate; cbn [exec] in Hexec;
      unfold _add_type, _mark_for_review in Hexec;
      rewrite Hpos in Hexec; cbn [mbind option_bind] in Hexec;
      rewrite Hf in Hexec; cbn [mbind option_bind] in Hexec;
      rewrite ?add_content_type_eq, ?add_review_marker_eq in Hexec;
      cbn [inserted_line] in Hins; rewrite Hins in Hexec;
      injection Hexec as _ <-; apply show_status_same_files.
  - rewrite (Hsame eq_refl). apply same_files_refl.
Qed.

(** The shape of the result of an undo with a full slot. *)
Lemma undo_inv (s s' : AsciiDocTUI) (w w' : World) (i : Z) (ls : list str) :
  last_modification s = Some (i, ls) → (0 ≤ i)%Z →
  _undo addstr_raises s w = Some (s', w') →
  ∃ f,
    (i < Z.of_nat (length (files s)))%Z
    ∧ files s !! Z.to_nat i = Some f
    ∧ s' = {| directory := directory s;
              files := <[Z.to_nat i := {| path := path f; content := content f;
                                          lines := ls |}]> (files s);
              current_index := i;
              scroll_offset := 0;
              last_modification := None |}
    ∧ same_files (write_text (path f) (join ls) w) w'.
Proof.
  intros Hlm Hi Hundo.
  destruct (index_pos i (length (files s))) as [pos|] eqn:Hpos.
  2:{ unfold _undo in Hundo. rewrite Hlm, Hpos in Hundo. discriminate. }
  destruct (index_pos_nonneg _ _ _ Hi Hpos) as [-> Hlt].
  destruct (lookup_lt_is_Some_2 (files s) (Z.to_nat i)) as [f Hf]; [lia|].
  rewrite (undo_Some addstr_raises s w i ls _ f Hlm Hpos Hf) in Hundo.
  injection Hundo as <- <-. exists f. do 3 (split; [done|]).
  apply show_status_same_files.
Qed.

Lemma fmap_insert_same {A B} (g : A → B) (fs : list A) (pos : nat) (f f' : A) :
  fs !! pos = Some f → g f' = g f → g <$> <[pos := f']> fs = g <$> fs.
Proof.
  intros Hf Hg. rewrite list_fmap_insert, Hg.
  apply list_insert_id. by rewrite list_lookup_fmap, Hf.
Qed.

(** Every command either edits nothing, or replaces the lines of one
    document of the session and writes their join to that document's file. *)
Lemma exec_effect (c : Command) (s s' : AsciiDocTUI) (w w' : World) :
  cursor_ok s → slot_ok s →
  exec addstr_raises c s w = Some (s', w') →
  (files s' = files s ∧ same_files w w')
  ∨ (∃ pos f ls,
        files s !! pos = Some f
        ∧ files s' = <[pos := {| path := path f; content := content f;
                                 lines := ls |}]> (files s)
        ∧ same_files (write_text (path f) (join ls) w) w').
Proof.
  intros Hcur Hslot Hexec.
  destruct (mutating c) eqn:Hmut.
  - destruct (exec_mutating_inv c s s' w w' Hmut Hcur Hexec)
      as (f & ok & f' & w1 & Hlt & Hf & Hins & -> & Hsame).
    cbn [files].
    destruct (find_first_heading_id f) as [i|] eqn:Hfind.
    + rewrite (insert_line_Some _ _ _ _ Hfind) in Hins.
      injection Hins as <- <- <-. right.
      by exists (Z.to_nat (current_index s)), f,
        (py_insert i (inserted_line c) (lines f)).
    + rewrite (insert_line_None _ _ _ Hfind) in Hins.
      injection Hins as <- <- <-. left.
      by rewrite list_insert_id.
  - destruct c; try discriminate.
    + (* undo *)
      cbn [exec] in Hexec.
      destruct (last_modification s) as [[i ls]|] eqn:Hlm.
      * unfold slot_ok in Hslot. rewrite Hlm in Hslot.
        destruct (undo_inv s s' w w' i ls Hlm (proj1 Hslot) Hexec)
          as (f & _ & Hf & -> & Hsame).
        right. by exists (Z.to_nat i), f, ls.
      * rewrite (undo_None addstr_raises s w Hlm) in Hexec.
        injection Hexec as <- <-. left.
        split; [done | apply show_status_same_files].
    + destruct (exec_navigating addstr_raises Advance _ _ _ _ eq_refl Hexec)
        as (-> & _ & ->). left. split; [done | apply same_files_refl].
    + destruct (exec_navigating addstr_raises Retreat _ _ _ _ eq_refl Hexec)
        as (-> & _ & ->). left. split; [done | apply same_files_refl].
    + destruct (exec_navigating addstr_raises ScrollDown _ _ _ _ eq_refl Hexec)
        as (-> & _ & ->). left. split; [done | apply same_files_refl].
    + destruct (exec_navigating addstr_raises ScrollUp _ _ _ _ eq_refl Hexec)
        as (-> & _ & ->). left. split; [done | apply same_files_refl].
Qed.

(** Every command keeps the cursor and the undo slot within the session. *)
Lemma exec_keeps_ok (c : Command) (s s' : AsciiDocTUI) (w w' : World) :
  cursor_ok s → slot_ok s →
  exec addstr_raises c s w = Some (s', w') →
  cursor_ok s' ∧ slot_ok s'.
Proof.
  intros Hcur Hslot Hexec.
  destruct (mutating c) eqn:Hmut.
  - destruct (exec_mutating_inv c s s' w w' Hmut Hcur Hexec)
      as (f & ok & f' & w1 & Hlt & Hf & Hins & -> & Hsame).
    destruct Hcur as [H0 _]. unfold cursor_ok, slot_ok.
    cbn [files current_index last_modification]. rewrite length_insert. lia.
  - destruct c; try discriminate; cbn [exec] in Hexec.
    + destruct (last_modification s) as [[i ls]|] eqn:Hlm.
      * unfold slot_ok in Hslot. rewrite Hlm in Hslot.
        destruct (undo_inv s s' w w' i ls Hlm (proj1 Hslot) Hexec)
          as (f & _ & Hf & -> & Hsame).
        unfold cursor_ok, slot_ok.
        cbn [files current_index last_modification]. rewrite length_insert. lia.
      * rewrite (undo_None addstr_raises s w Hlm) in Hexec.
        by injection Hexec as <- <-.
    + injection Hexec as <- <-. unfold cursor_ok, slot_ok, _next_file in *.
      destruct (_ <? _)%Z eqn:Hlt; [|done].
      apply Z.ltb_lt in Hlt. cbn [files current_index last_modification].
      split; [lia | done].
    + injection Hexec as <- <-. unfold cursor_ok, slot_ok, _prev_file in *.
      destruct (_ >? _)%Z eqn:Hgt; [|done].
      apply Z.gtb_gt in Hgt. cbn [files current_index last_modification].
      split; [lia | done].
    + unfold _scroll_down in Hexec.
      destruct (index_pos _ _) as [pos|]; [|done]. cbn [mbind option_bind] in Hexec.
      destruct (files s !! pos) as [f|]; [|done]. cbn [mbind option_bind] in Hexec.
      destruct (_ <? _)%Z; by injection Hexec as <- <-.
    + by injection Hexec as <- <-.
Qed.

(** On a focused document every command returns. *)
Lemma exec_total (c : Command) (s : AsciiDocTUI) (w : World) :
  cursor_ok s → slot_ok s →
  (current_index s < Z.of_nat (length (files s)))%Z →
  is_Some (exec addstr_raises c s w).
Proof.
  intros [H0 _] Hslot Hlt.
  assert (Hrange : (0 ≤ current_index s < Z.of_nat (length (files s)))%Z) by lia.
  pose proof (index_pos_in_range _ _ Hrange) as Hpos.
  destruct (lookup_lt_is_Some_2 (files s) (Z.to_nat (current_index s)))
    as [f Hf]; [lia|].
  destruct (mutating c) eqn:Hmut.
  - destruct (exec_mutating addstr_raises c s w _ f Hmut Hpos Hf)
      as (? & ? & ? & ? & _ & -> & _). eauto.
  - destruct c; try discriminate; cbn [exec]; try by eauto.
    + destruct (last_modification s) as [[i ls]|] eqn:Hlm.
      * unfold slot_ok in Hslot. rewrite Hlm in Hslot.
        destruct (lookup_lt_is_Some_2 (files s) (Z.to_nat i)) as [g Hg]; [lia|].
        rewrite (undo_Some addstr_raises s w i ls (Z.to_nat i) g Hlm
                   (index_pos_in_range _ _ Hslot) Hg). eauto.
      * rewrite (undo_None addstr_raises s w Hlm). eauto.
    + unfold _scroll_down. rewrite Hpos. cbn [mbind option_bind].
      rewrite Hf. cbn [mbind option_bind]. destruct (_ <? _)%Z; eauto.
Qed.

(** ** Induction over the loop of [run]

    [K] holds of every key pressed; [P] is kept by painting and by every
    command that such a key selects. *)
Lemma run_loop_inv (K : Z → Prop) (P : AsciiDocTUI → World → Prop) :
  (∀ s w w', same_files w w' → P s w → P s w') →
  (∀ key c s w s' w',
      K key → command_of_key key = Some c →
      cursor_ok s → slot_ok s →
      (current_index s < Z.of_nat (length (files s)))%Z →
      exec addstr_raises c s w = Some (s', w') → P s w → P s' w') →
  ∀ keys s w,
    Forall K keys → cursor_ok s → slot_ok s → P s w →
    let o := run_loop addstr_raises keys s w in
    cursor_ok (outcome_session o) ∧ slot_ok (outcome_session o)
    ∧ P (outcome_session o) (outcome_world o)
    ∧ (∀ e s' w', o = Raised e s' w' → e = CursesError ∧ some_addstr_raises addstr_raises).
Proof.
  intros Hpaint Hstep keys.
  induction keys as [|key rest IH]; intros s w HK Hcur Hslot HP.
  - cbn [run_loop].
    destruct (current_index s <? _)%Z eqn:Hlt.
    + apply Z.ltb_lt in Hlt.
      pose proof (draw_screen_frame s w) as Hdraw.
      destruct (_draw_screen addstr_raises s w) as [[e w']|w1]; cbn.
      * destruct Hdraw as [Hsame [[-> Hnone] | [-> Hr]]].
        -- destruct Hcur as [Hc0 _].
           rewrite index_pos_in_range in Hnone by lia.
           cbn in Hnone. apply lookup_ge_None in Hnone. lia.
        -- do 3 (split; [by eauto|]). by intros ??? [= <- _ _].
      * do 3 (split; [by eauto|]). by intros.
    + destruct (closing_screen_frame (processed_line s) [] s w)
        as (Hs & Hsame & Hr).
      cbn zeta. rewrite Hs. do 2 (split; [done|]).
      split; [by eapply Hpaint | done].
  - cbn [run_loop]. apply Forall_cons in HK as [Hkey HK].
    destruct (current_index s <? _)%Z eqn:Hlt.
    + apply Z.ltb_lt in Hlt.
      pose proof (draw_screen_frame s w) as Hdraw.
      destruct (_draw_screen addstr_raises s w) as [[e w']|w1].
      * cbn. destruct Hdraw as [Hsame [[-> Hnone] | [-> Hr]]].
        -- destruct Hcur as [Hc0 _].
           rewrite index_pos_in_range in Hnone by lia.
           cbn in Hnone. apply lookup_ge_None in Hnone. lia.
        -- do 3 (split; [by eauto|]). by intros ??? [= <- _ _].
      * assert (HP1 : P s w1) by by eapply Hpaint.
        destruct (is_quit key).
        { destruct (closing_screen_frame (processed_line s) rest s w1)
            as (Hs & Hsame & Hr).
          cbn zeta. rewrite Hs. do 2 (split; [done|]).
          split; [by eapply Hpaint | done]. }
        destruct (command_of_key key) as [c|] eqn:Hc; [|by apply IH].
        destruct (exec_total c s w1 Hcur Hslot Hlt) as [[s' w'] Hexec].
        rewrite Hexec.
        destruct (exec_keeps_ok c s s' w1 w' Hcur Hslot Hexec) as [Hcur' Hslot'].
        apply IH; eauto.
    + destruct (closing_screen_frame (processed_line s) (key :: rest) s w)
        as (Hs & Hsame & Hr).
      cbn zeta. rewrite Hs. do 2 (split; [done|]).
      split; [by eapply Hpaint | done].
Qed.

(** The same for [run], which may skip the loop. *)
Lemma run_inv (K : Z → Prop) (P : AsciiDocTUI → World → Prop) :
  (∀ s w w', same_files w w' → P s w → P s w') →
  (∀ key c s w s' w',
      K key → command_of_key key = Some c →
      cursor_ok s → slot_ok s →
      (current_index s < Z.of_nat (length (files s)))%Z →
      exec addstr_raises c s w = Some (s', w') → P s w → P s' w') →
  ∀ keys s w,
    Forall K keys → cursor_ok s → slot_ok s → P s w →
    let o := run addstr_raises keys s w in
    cursor_ok (outcome_session o) ∧ slot_ok (outcome_session o)
    ∧ P (outcome_session o) (outcome_world o)
    ∧ (∀ e s' w', o = Raised e s' w' → e = CursesError ∧ some_addstr_raises addstr_raises).
Proof.
  intros Hpaint Hstep keys s w HK Hcur Hslot HP. unfold run.
  destruct (files s) as [|f fs] eqn:Hfiles.
  - destruct (closing_screen_frame
                (lit "No AsciiDoc files found without content type metadata.")
                keys s w) as (Hs & Hsame & Hr).
    cbn zeta. rewrite Hs. do 2 (split; [done|]).
    split; [by eapply Hpaint | done].
  - by apply run_loop_inv with (K := K).
Qed.

Lemma init_ok (dir : Path) (rglob_sorted : list Path) (w : World) :
  cursor_ok (AsciiDocTUI_init dir rglob_sorted w)
  ∧ slot_ok (AsciiDocTUI_init dir rglob_sorted w).
Proof. unfold cursor_ok, slot_ok. cbn. lia. Qed.


(** X4.  Whatever keys are pressed, [run] neither adds, removes, reorders
    nor renames a document, and never touches the text cached in [content]:
    the paths and the cached texts of the documents are at the end what they
    were at the start. *)
Theorem run_keeps_documents (keys : list Z) (s : AsciiDocTUI) (w : World) :
  cursor_ok s → slot_ok s →
  let o := run addstr_raises keys s w in
  path <$> files (outcome_session o) = path <$> files s
  ∧ content <$> files (outcome_session o) = content <$> files s
  ∧ length (files (outcome_session o)) = length (files s)
  ∧ directory (outcome_session o) = directory s.
Proof.
  intros Hcur Hslot.
  destruct (run_inv (λ _, True)
              (λ s' _, path <$> files s' = path <$> files s
                       ∧ content <$> files s' = content <$> files s
                       ∧ directory s' = directory s))
    with (keys := keys) (s := s) (w := w)
    as (_ & _ & (Hp & Hc & Hd) & _); try done.
  - intros key c s1 w1 s2 w2 _ _ Hcur1 Hslot1 _ Hexec (Hp & Hc & Hd).
    assert (directory s2 = directory s1) as ->.
    { destruct (mutating c) eqn:Hmut.
      - by destruct (exec_mutating_inv c s1 s2 w1 w2 Hmut Hcur1 Hexec)
          as (? & ? & ? & ? & _ & _ & _ & -> & _).
      - destruct c; try discriminate; cbn [exec] in Hexec.
        + destruct (last_modification s1) as [[i ls]|] eqn:Hlm.
          * unfold slot_ok in Hslot1. rewrite Hlm in Hslot1.
            by destruct (undo_inv s1 s2 w1 w2 i ls Hlm (proj1 Hslot1) Hexec)
              as (? & _ & _ & -> & _).
          * rewrite (undo_None addstr_raises s1 w1 Hlm) in Hexec.
            by injection Hexec as <- _.
        + injection Hexec as <- _. unfold _next_file. by destruct (_ <? _)%Z.
        + injection Hexec as <- _. unfold _prev_file. by destruct (_ >? _)%Z.
        + unfold _scroll_down in Hexec.
          destruct (index_pos _ _) as [pos|]; [|done].
          cbn [mbind option_bind] in Hexec.
          destruct (files s1 !! pos) as [f|]; [|done].
          cbn [mbind option_bind] in Hexec.
          destruct (_ <? _)%Z; by injection Hexec as <- _.
        + by injection Hexec as <- _. }
    destruct (exec_effect c s1 s2 w1 w2 Hcur1 Hslot1 Hexec)
      as [[-> _] | (pos & f & ls & Hf & -> & _)]; [done|].
    by rewrite !(fmap_insert_same _ _ _ f) by done.
  - by apply Forall_true.
  - repeat split; try done.
    by rewrite <- (length_fmap path), Hp, length_fmap.
Qed.



(** ** The files of the candidates *)







(** X8.  Keys other than the tag, flag and undo keys only browse: whatever
    their number and order, [run] leaves every document, the undo slot and
    the file system as they are and makes no write. *)
Theorem run_browsing_edits_nothing (keys : list Z) (s : AsciiDocTUI) (w : World) :
  Forall (λ key, editing_key key = false) keys →
  cursor_ok s → slot_ok s →
  let o := run addstr_raises keys s w in
  files (outcome_session o) = files s
  ∧ last_modification (outcome_session o) = last_modification s
  ∧ disk (outcome_world o) = disk w
  ∧ writes (trace (outcome_world o)) = writes (trace w).
Proof.
  intros Hkeys Hcur Hslot.
  destruct (run_inv (λ key, editing_key key = false)
              (λ s' w', files s' = files s
                        ∧ last_modification s' = last_modification s
                        ∧ same_files w w'))
    with (keys := keys) (s := s) (w := w)
    as (_ & _ & (Hf & Hl & Hd & _ & Hw) & _); try done.
  - intros s1 w1 w2 Hsame (Hf & Hl & Hs).
    do 2 (split; [done|]). by eapply same_files_trans.
  - intros key c s1 w1 s2 w2 Hkey Hc _ _ _ Hexec (Hf & Hl & Hs).
    unfold editing_key in Hkey. rewrite Hc in Hkey.
    assert (Hnav : navigating c = true) by by destruct c.
    destruct (exec_navigating addstr_raises c _ _ _ _ Hnav Hexec)
      as (-> & -> & ->). done.
Qed.


End ScreenProperties.

(** ** The further properties on the small session *)


Lemma run_keeps_documents_example :
  path <$> files (outcome_session
                    (run never_raises [99; 63; 117; 113]%Z session0 world0))
  = path <$> files session0.
Proof.
  destruct (init_ok (lit "m")
              [lit "m/b.adoc"; lit "m/c.adoc"; lit "m/e.adoc"] world0)
    as [Hcur Hslot].
  apply (run_keeps_documents never_raises
           [99; 63; 117; 113]%Z session0 world0 Hcur Hslot).
Defined.




Lemma run_browsing_edits_nothing_example :
  Forall (λ key, editing_key key = false) [102; 98; 109; 259; 120; 113]%Z
  ∧ files (outcome_session
             (run never_raises [102; 98; 109; 259; 120; 113]%Z session0 world0))
    = files session0.
Proof.
  assert (Hkeys : Forall (λ key, editing_key key = false)
                    [102; 98; 109; 259; 120; 113]%Z).
  { repeat constructor. }
  destruct (init_ok (lit "m")
              [lit "m/b.adoc"; lit "m/c.adoc"; lit "m/e.adoc"] world0)
    as [Hcur Hslot].
  split; [exact Hkeys|].
  apply (run_browsing_edits_nothing never_raises
           [102; 98; 109; 259; 120; 113]%Z session0 world0 Hkeys Hcur Hslot).
Defined.


(** ** What [_draw_screen] paints *)

Lemma py_slice_window {A} (a h : Z) (l : list A) :
  (0 ≤ a)%Z → (0 ≤ h)%Z →
  py_slice a (a + h) l = take (Z.to_nat h) (drop (Z.to_nat a) l).
Proof.
  intros Ha Hh. unfold py_slice, slice_bound.
  rewrite (proj2 (Z.ltb_ge a 0)), (proj2 (Z.ltb_ge (a + h) 0)) by lia.
  destruct (decide (length l ≤ Z.to_nat a)) as [Hge|Hlt].
  - rewrite (Nat.min_r (Z.to_nat a)), (Nat.min_r (Z.to_nat (a + h))) by lia.
    rewrite Nat.sub_diag, (drop_ge l (Z.to_nat a)) by lia.
    by rewrite take_nil.
  - rewrite (Nat.min_l (Z.to_nat a)) by lia.
    destruct (decide (Z.to_nat (a + h) ≤ length l)) as [Hle|Hgt].
    + rewrite Nat.min_l by lia. f_equal. lia.
    + rewrite Nat.min_r by lia.
      rewrite !take_ge; [done | rewrite length_drop; lia..].
Qed.

Section DrawProperties.

Variable addstr_raises : Z * Z → Z → Z → str → bool.

(** An event painted in column 0 of a row between [lo] and [hi]. *)
Lemma addstr_pass_trace (y x : Z) (t : str) (pair : Z) (w : World) :
  trace (addstr_pass addstr_raises y x t pair w) = trace w
  ∨ trace (addstr_pass addstr_raises y x t pair w)
    = trace w ++ [EvAddStr y x t pair].
Proof.
  unfold addstr_pass, addstr. destruct (addstr_raises _ _ _ _); [by left | by right].
Qed.

Lemma draw_lines_trace (i width : Z) (ls : list str) (w : World) :
  ∃ new,
    trace (draw_lines addstr_raises i width ls w) = trace w ++ new
    ∧ length new ≤ length ls
    ∧ Forall (λ e, ∃ y t pair, e = EvAddStr y 0 t pair
                   ∧ (3 + i ≤ y < 3 + i + Z.of_nat (length ls))%Z) new.
Proof.
  revert i w. induction ls as [|line ls IH]; intros i w; cbn [draw_lines].
  - exists []. rewrite app_nil_r. by repeat split.
  - set (w1 := if is_heading_id line then _ else _).
    destruct (IH (i + 1)%Z w1) as (new & Htrace & Hlen & Hall).
    assert (Hw1 : ∃ pair,
               trace w1 = trace w
               ∨ trace w1
                 = trace w ++ [EvAddStr (3 + i) 0 (slice_to (width - 1) line) pair]).
    { subst w1. destruct (is_heading_id line); eexists; apply addstr_pass_trace. }
    destruct Hw1 as [pair Hw1].
    assert (Hall' : Forall (λ e, ∃ y t pair0, e = EvAddStr y 0 t pair0
                     ∧ (3 + i ≤ y < 3 + i + Z.of_nat (length (line :: ls)))%Z) new).
    { eapply Forall_impl; [exact Hall|].
      intros e (y & t & p & -> & Hy). exists y, t, p.
      split; [done | cbn [length]; lia]. }
    destruct Hw1 as [Hw1 | Hw1]; rewrite Htrace, Hw1.
    + exists new. split; [done|]. split; [cbn [length]; lia | done].
    + exists (EvAddStr (3 + i) 0 (slice_to (width - 1) line) pair :: new).
      rewrite <- app_assoc. split; [done|]. split; [cbn [length]; lia|].
      constructor; [|done]. eexists _, _, _. split; [reflexivity|].
      cbn [length]; lia.
Qed.

(** X10.  In a terminal of at least 4 rows, with a scroll offset that is
    not negative, [_draw_screen] paints in column 0 of rows 0 to
    [height - 1] only: the three chrome rows, at most [height - 4] lines of
    the document in rows 3 to [height - 2], and a footer in the last row.
    It ends with a refresh, changes no file and makes no write. *)
Theorem draw_screen_rows (s : AsciiDocTUI) (w w' : World) :
  (4 ≤ fst (maxyx w))%Z → (0 ≤ scroll_offset s)%Z →
  _draw_screen addstr_raises s w = inr w' →
  disk w' = disk w
  ∧ writes (trace w') = writes (trace w)
  ∧ ∃ chrome content footer,
      trace w' = trace w ++ chrome ++ content ++ footer ++ [EvRefresh]
      ∧ Forall (λ e, ∃ y t pair, e = EvAddStr y 0 t pair ∧ (0 ≤ y ≤ 2)%Z) chrome
      ∧ (Z.of_nat (length content) ≤ fst (maxyx w) - 4)%Z
      ∧ Forall (λ e, ∃ y t pair, e = EvAddStr y 0 t pair
                     ∧ (3 ≤ y ≤ fst (maxyx w) - 2)%Z) content
      ∧ Forall (λ e, ∃ t, e = EvAddStr (fst (maxyx w) - 1) 0 t 3) footer
      ∧ length footer ≤ 1.
Proof.
  intros Hheight Hscroll Hdraw.
  pose proof (draw_screen_frame addstr_raises s w) as Hframe.
  rewrite Hdraw in Hframe. destruct Hframe as (Hd & _ & Hw).
  do 2 (split; [done|]). clear Hd Hw.
  unfold _draw_screen in Hdraw.
  destruct (maxyx w) as [height width] eqn:Hm. cbn [fst] in *.
  destruct (index_pos _ _ ≫= _) as [f|]; [|done].
  destruct (addstr _ 0 0 _ 1 w) as [[e w0]|w1] eqn:H1; [done|].
  destruct (addstr _ 1 0 _ 3 w1) as [[e w0]|w2] eqn:H2; [done|].
  destruct (addstr _ 2 0 _ 0 w2) as [[e w0]|w3] eqn:H3; [done|].
  apply addstr_inr in H1 as [_ H1]. apply addstr_inr in H2 as [_ H2].
  apply addstr_inr in H3 as [_ H3].
  injection Hdraw as <-.
  rewrite py_slice_window by lia.
  set (shown := take _ (drop _ (lines f))).
  assert (Hshown : (Z.of_nat (length shown) ≤ height - 4)%Z).
  { subst shown. rewrite length_take. lia. }
  destruct (draw_lines_trace 0 width shown w3) as (content & Hc & Hlen & Hall).
  set (w4 := draw_lines addstr_raises 0 width shown w3) in *.
  set (e1 := EvAddStr 0 0 _ 1) in H1.
  set (e2 := EvAddStr 1 0 _ 3) in H2.
  set (e3 := EvAddStr 2 0 _ 0) in H3.
  assert (Htr : trace w4 = trace w ++ [e1; e2; e3] ++ content).
  { rewrite Hc, H3, H2, H1, <- !app_assoc. reflexivity. }
  assert (Hchrome : Forall (λ e, ∃ y t pair, e = EvAddStr y 0 t pair
                                 ∧ (0 ≤ y ≤ 2)%Z) [e1; e2; e3]).
  { repeat constructor; eexists _, _, _; (split; [reflexivity | lia]). }
  assert (Hcontent : Forall (λ e, ∃ y t pair, e = EvAddStr y 0 t pair
                                  ∧ (3 ≤ y ≤ height - 2)%Z) content).
  { eapply Forall_impl; [exact Hall|].
    intros e (y & t & p & -> & Hy). exists y, t, p. split; [done | lia]. }
  assert (Hcount : (Z.of_nat (length content) ≤ height - 4)%Z) by lia.
  cbn [refresh trace].
  destruct (_ <? _)%Z.
  - unfold addstr_pass, addstr.
    destruct (addstr_raises (maxyx w4) _ _ _).
    + exists [e1; e2; e3], content, [].
      split; [by rewrite Htr, <- !app_assoc|].
      do 3 (split; [done|]). split; [constructor | cbn; lia].
    + eexists [e1; e2; e3], content, [_].
      split; [cbn [trace]; rewrite Htr, <- !app_assoc; reflexivity|].
      do 3 (split; [done|]). split; [|cbn; lia].
      constructor; [by eexists | constructor].
  - exists [e1; e2; e3], content, [].
    split; [by rewrite Htr, <- !app_assoc|].
    do 3 (split; [done|]). split; [constructor | cbn; lia].
Qed.

End DrawProperties.

Lemma draw_screen_rows_example :
  (4 ≤ fst (maxyx world0))%Z ∧ (0 ≤ scroll_offset session0)%Z
  ∧ ∃ w', _draw_screen never_raises session0 world0 = inr w'
          ∧ disk w' = disk world0.
Proof.
  split; [by vm_compute|]. split; [by vm_compute|].
  destruct (_draw_screen never_raises session0 world0) as [[e w0]|w'] eqn:Hdraw;
    [by vm_compute in Hdraw|].
  exists w'. split; [reflexivity|].
  assert (H4 : (4 ≤ fst (maxyx world0))%Z) by by vm_compute.
  assert (H0 : (0 ≤ scroll_offset session0)%Z) by by vm_compute.
  exact (proj1 (draw_screen_rows never_raises session0 world0 w' H4 H0 Hdraw)).
Defined.

(** ** Loading a document *)

Lemma splitlines_from_nonempty (s cur : str) :
  Forall (λ l, l ≠ []) (splitlines_from cur s).
Proof.
  remember (length s) as n eqn:Hn. revert s cur Hn.
  induction n as [n IH] using lt_wf_ind. intros s cur ->.
  destruct s as [|c rest]; cbn [splitlines_from].
  - destruct cur; by repeat constructor.
  - destruct (negb (is_linebreak c)).
    + eapply IH; [|reflexivity]. cbn [length]. lia.
    + destruct rest as [|c' rest'].
      * repeat constructor. by destruct cur.
      * destruct (_ && _)%N; constructor; try by destruct cur.
        -- eapply IH; [|reflexivity]. cbn [length]. lia.
        -- eapply IH; [|reflexivity]. cbn [length]. lia.
Qed.

(** X11.  Loading succeeds exactly on a readable text file.  The loaded
    document carries the path it was loaded from and the whole text of the
    file; its lines are not empty and joined together give that text back,
    so that nothing of the file is lost or changed by splitting it. *)
Theorem load_round_trip (p : Path) (w : World) :
  (∀ d, AsciiDocFile_init p w = Some d →
        path d = p
        ∧ read_text p w = Some (content d)
        ∧ join (lines d) = content d
        ∧ Forall (λ l, l ≠ []) (lines d))
  ∧ (AsciiDocFile_init p w = None ↔
     ∀ text, disk w !! p ≠ Some (TextFile text)).
Proof.
  unfold AsciiDocFile_init, read_text. split.
  - intros d Hd.
    destruct (disk w !! p) as [[text| |]|]; try discriminate.
    cbn [mbind option_bind] in Hd. injection Hd as <-. cbn [path content lines].
    split; [done|]. split; [done|].
    split; [apply join_splitlines | apply splitlines_from_nonempty].
  - destruct (disk w !! p) as [[text| |]|]; cbn [mbind option_bind];
      split; try done.
    intros H. by destruct (H text).
Qed.

(** ** Anchors and white space *)

Lemma lstrip_spaces (ws s : str) :
  Forall (λ c, isspace c = true) ws → lstrip (ws ++ s) = lstrip s.
Proof.
  induction 1 as [|c ws Hc _ IH]; [done|]. cbn [app lstrip]. by rewrite Hc.
Qed.

Lemma lstrip_all_spaces (ws : str) :
  Forall (λ c, isspace c = true) ws → lstrip ws = [].
Proof.
  intros H. rewrite <- (app_nil_r ws). by rewrite lstrip_spaces.
Qed.

Lemma rstrip_spaces (s ws : str) :
  Forall (λ c, isspace c = true) ws → rstrip (s ++ ws) = rstrip s.
Proof.
  intros H. unfold rstrip. rewrite reverse_app, lstrip_spaces; [done|].
  by apply Forall_reverse.
Qed.

Lemma lstrip_app (a b : str) :
  lstrip (a ++ b) = lstrip a ++ b ∨ (lstrip a = [] ∧ lstrip (a ++ b) = lstrip b).
Proof.
  induction a as [|c a IH]; [by right|].
  cbn [app lstrip]. destruct (isspace c); [done | by left].
Qed.

(** X12.  White space around a line does not matter to the anchor test:
    padding a line on either side with any characters that [str.strip]
    removes leaves its stripped text, and so whether the line is an anchor,
    unchanged. *)
Theorem anchor_ignores_margins (ws1 ws2 line : str) :
  Forall (λ c, isspace c = true) ws1 →
  Forall (λ c, isspace c = true) ws2 →
  strip (ws1 ++ line ++ ws2) = strip line
  ∧ is_heading_id (ws1 ++ line ++ ws2) = is_heading_id line.
Proof.
  intros H1 H2.
  assert (Hstrip : strip (ws1 ++ line ++ ws2) = strip line).
  { unfold strip. rewrite lstrip_spaces by done.
    destruct (lstrip_app line ws2) as [-> | [Hnil ->]].
    - by apply rstrip_spaces.
    - by rewrite Hnil, lstrip_all_spaces. }
  split; [done|]. unfold is_heading_id. by rewrite Hstrip.
Qed.

Lemma anchor_ignores_margins_example :
  Forall (λ c, isspace c = true) (lit "  " ++ [9%N])
  ∧ Forall (λ c, isspace c = true) [13%N; 10%N]
  ∧ is_heading_id ((lit "  " ++ [9%N]) ++ lit "[id=x]" ++ [13%N; 10%N])
    = is_heading_id (lit "[id=x]").
Proof.
  assert (H1 : Forall (λ c, isspace c = true) (lit "  " ++ [9%N]))
    by (repeat constructor).
  assert (H2 : Forall (λ c, isspace c = true) [13%N; 10%N])
    by (repeat constructor).
  split; [exact H1|]. split; [exact H2|].
  exact (proj2 (anchor_ignores_margins _ _ (lit "[id=x]") H1 H2)).
Defined.

(** ** The next scan *)



(** ** Moving the cursor *)

(** X14.  Advance and retreat undo each other: from a focused document,
    advance then retreat comes back to it, and from any cursor past the
    first document, retreat then advance comes back to it; either way the
    view is at the top and nothing else has changed. *)
Theorem advance_retreat_inverse (s : AsciiDocTUI) :
  ((0 ≤ current_index s < Z.of_nat (length (files s)))%Z →
   _prev_file (_next_file s)
   = {| directory := directory s; files := files s;
        current_index := current_index s; scroll_offset := 0;
        last_modification := last_modification s |})
  ∧ ((0 < current_index s ≤ Z.of_nat (length (files s)))%Z →
     _next_file (_prev_file s)
     = {| directory := directory s; files := files s;
          current_index := current_index s; scroll_offset := 0;
          last_modification := last_modification s |}).
Proof.
  split; intros Hrange; unfold _next_file, _prev_file.
  - rewrite (proj2 (Z.ltb_lt _ _)) by lia. cbn [current_index].
    replace (current_index s + 1 >? 0)%Z with true by (symmetry; lia).
    cbn. f_equal. lia.
  - replace (current_index s >? 0)%Z with true by (symmetry; lia).
    cbn [current_index files].
    rewrite (proj2 (Z.ltb_lt _ _)) by lia.
    cbn. f_equal. lia.
Qed.

(** ** One edit, and a whole session of edits *)


Section EditProperties.

Variable addstr_raises : Z * Z → Z → Z → str → bool.






End EditProperties.


